(** * financialdatapy: the company list, its lookup, the market dispatch
      and the database scripts

    A shallow embedding of [financialdatapy/cik.py],
    [financialdatapy/market.py], [financialdatapy/stock.py],
    [scripts/connect.py] and [scripts/main.py].

    Conventions of the embedding.
    - A Python [str] is a [string]; its characters are the code points 0 to
      255.  The whitespace, word and lower-case functions below are Python's
      on these code points, and so is the upper-case function except at the
      three code points 181, 223 and 255, whose upper case is not among them:
      they are kept as they are, and [PyStr.upper_defined] says that a string
      has none of them.
    - A Python [int] is a [Z].
    - A row of the payload is the list of its cells, which may be shorter or
      longer than the list of fields; a cell that JSON gives as [null] is
      [None] of an [option], and so is the cell that the DataFrame constructor
      adds to a short row.
    - A call that may raise returns a [result]; the exception classes that the
      code can meet are the constructors of [PyExc]. *)

From Stdlib Require Import ZArith NArith List Bool Ascii String Lia.
Import ListNotations.

Local Open Scope string_scope.
Local Open Scope list_scope.

(** ** Exceptions and results *)

Inductive PyExc : Type :=
| TypeError
| ValueError
| KeyError
| FileNotFoundError
| NotAvailable
| OtherException (msg : string)
| KeyboardInterrupt.

(** [isinstance(e, Exception)]: everything but the [BaseException]-only
    classes. *)
Definition is_Exception (e : PyExc) : bool :=
  match e with
  | KeyboardInterrupt => false
  | _ => true
  end.

(** [str(e)], what [print(e)] writes. *)
Definition exc_str (e : PyExc) : string :=
  match e with
  | OtherException msg => msg
  | _ => ""
  end.

Inductive result (A : Type) : Type :=
| Ok (a : A)
| Raise (e : PyExc).
Arguments Ok {A} a.
Arguments Raise {A} e.

Definition bind {A B : Type} (m : result A) (f : A -> result B) : result B :=
  match m with
  | Ok a => f a
  | Raise e => Raise e
  end.

Notation "x <- m ;; k" := (bind m (fun x => k))
  (at level 61, m at next level, right associativity).

(** A list comprehension whose body may raise: the first exception aborts
    the whole comprehension. *)
Fixpoint comprehension {A B : Type} (f : A -> result B) (l : list A)
  : result (list B) :=
  match l with
  | [] => Ok []
  | a :: l' =>
      b <- f a ;;
      bs <- comprehension f l' ;;
      Ok (b :: bs)
  end.

(** ** Python strings *)

Module PyStr.

Definition code (c : ascii) : N := N_of_ascii c.

Definition between (lo hi : N) (c : ascii) : bool :=
  ((lo <=? code c) && (code c <=? hi))%N.

(** [str.isspace] on one character, which is also [\s] of [re] and what
    [str.split] splits at: TAB..CR, FS..US, the space, NEL and the
    no-break space. *)
Definition isspace (c : ascii) : bool :=
  between 9 13 c || between 28 32 c || between 133 133 c
  || between 160 160 c.

Definition islower (c : ascii) : bool := between 97 122 c.
Definition isupper (c : ascii) : bool := between 65 90 c.
Definition isdigit (c : ascii) : bool := between 48 57 c.

(** The letters beyond 127 that have the other case 32 code points away:
    all of 192..222 and 224..254 but the two signs in the middle. *)
Definition latin_upper (c : ascii) : bool :=
  between 192 214 c || between 216 222 c.
Definition latin_lower (c : ascii) : bool :=
  between 224 246 c || between 248 254 c.

(** The code points whose upper case is a single code point up to 255: all
    but 181, 223 and 255. *)
Definition has_upper (c : ascii) : bool :=
  negb (between 181 181 c || between 223 223 c || between 255 255 c).

Definition upper_char (c : ascii) : ascii :=
  if islower c || latin_lower c then ascii_of_N (code c - 32) else c.

Definition lower_char (c : ascii) : ascii :=
  if isupper c || latin_upper c then ascii_of_N (code c + 32) else c.

Fixpoint map_chars (f : ascii -> ascii) (s : string) : string :=
  match s with
  | EmptyString => EmptyString
  | String c s' => String (f c) (map_chars f s')
  end.

(** [s.upper()] and [s.lower()]. *)
Definition upper (s : string) : string := map_chars upper_char s.
Definition lower (s : string) : string := map_chars lower_char s.

Fixpoint forallb_chars (p : ascii -> bool) (s : string) : bool :=
  match s with
  | EmptyString => true
  | String c s' => p c && forallb_chars p s'
  end.

(** Every character of [s] has its upper case among the code points. *)
Definition upper_defined (s : string) : bool := forallb_chars has_upper s.

(** The rest of [s] after its longest prefix of characters in [p]. *)
Fixpoint drop_while (p : ascii -> bool) (s : string) : string :=
  match s with
  | EmptyString => EmptyString
  | String c s' => if p c then drop_while p s' else s
  end.

(** [s.capitalize()]: first character upper case, the others lower case. *)
Definition capitalize (s : string) : string :=
  match s with
  | EmptyString => EmptyString
  | String c s' => String (upper_char c) (lower s')
  end.

(** [s.split()] with no separator: the maximal runs of non-whitespace.
    [word] is the run being read. *)
Fixpoint split_from (word : string) (s : string) : list string :=
  match s with
  | EmptyString =>
      match word with EmptyString => [] | _ => [word] end
  | String c s' =>
      if isspace c then
        match word with
        | EmptyString => split_from EmptyString s'
        | _ => word :: split_from EmptyString s'
        end
      else split_from (word ++ String c EmptyString) s'
  end.

Definition split (s : string) : list string := split_from EmptyString s.

(** [sep.join(words)]. *)
Fixpoint join (sep : string) (words : list string) : string :=
  match words with
  | [] => EmptyString
  | [w] => w
  | w :: ws => w ++ sep ++ join sep ws
  end.

(** [string.capwords(s)]: [' '.join(x.capitalize() for x in s.split())]. *)
Definition capwords (s : string) : string :=
  join " " (map capitalize (split s)).

(** [c * n] for a one-character string [c]; a negative [n] gives [''] . *)
Definition repeat_char (c : ascii) (n : Z) : string :=
  string_of_list_ascii (repeat c (Z.to_nat n)).

(** *** [str(n)] for an [int] *)

Definition digit_char (d : Z) : ascii := ascii_of_N (48 + Z.to_N d).

(** Decimal digits of a positive number, most significant first, pushed in
    front of [acc]. *)
Fixpoint digits_from (fuel : nat) (n : Z) (acc : string) : string :=
  match fuel with
  | O => acc
  | S fuel' =>
      let acc' := String (digit_char (n mod 10)) acc in
      if (n / 10 =? 0)%Z then acc' else digits_from fuel' (n / 10) acc'
  end.

(** The number of binary digits bounds the number of decimal ones. *)
Definition str_nonneg (n : Z) : string :=
  digits_from (S (Z.to_nat (Z.log2 n))) n EmptyString.

Definition str_int (n : Z) : string :=
  if (n <? 0)%Z then String "-" (str_nonneg (- n)) else str_nonneg n.

(** [int(s)] on a string of digits, to read a rendered number back. *)
Definition digit_val (c : ascii) : Z := Z.of_N (code c) - 48.

Fixpoint int_from (acc : Z) (s : string) : Z :=
  match s with
  | EmptyString => acc
  | String c s' => int_from (10 * acc + digit_val c) s'
  end.

Definition int_of_digits (s : string) : Z := int_from 0 s.

End PyStr.

(** ** Regular expressions, as far as [cik.py] uses them

    The pattern of [get_cik] is a sequence of quantified character classes.
    [match_here] is the backtracking matcher of [re]: every quantifier is
    greedy, and gives characters back when what follows fails. *)

Module Re.

Inductive quant : Type :=
| One    (* x  *)
| Opt    (* x? *)
| Star.  (* x* *)

Definition item : Type := (ascii -> bool) * quant.

(** [match_here items s]: the rest of [s] after the match of [items] that
    starts at the head of [s], if there is one. *)
Fixpoint match_here (items : list item) (s : string) : option string :=
  match items with
  | [] => Some s
  | (cls, q) :: items' =>
      match q with
      | One =>
          match s with
          | String c s' => if cls c then match_here items' s' else None
          | EmptyString => None
          end
      | Opt =>
          match s with
          | String c s' =>
              if cls c then
                match match_here items' s' with
                | Some rest => Some rest
                | None => match_here items' s
                end
              else match_here items' s
          | EmptyString => match_here items' s
          end
      | Star =>
          (fix star (t : string) : option string :=
             match t with
             | String c t' =>
                 if cls c then
                   match star t' with
                   | Some rest => Some rest
                   | None => match_here items' t
                   end
                 else match_here items' t
             | EmptyString => match_here items' t
             end) s
      end
  end.

(** The flag [re.I]: a class accepts a character when it accepts one of its
    two cases. *)
Definition ignorecase (cls : ascii -> bool) (c : ascii) : bool :=
  cls c || cls (PyStr.lower_char c) || cls (PyStr.upper_char c).

Definition compile_I (items : list item) : list item :=
  map (fun it => (ignorecase (fst it), snd it)) items.

(** [regex.sub('', s)]: scanning from the left, every match is left out and
    the scan goes on after it; a character at which nothing matches is
    kept.  An empty match removes nothing. *)
Fixpoint sub_empty_from (fuel : nat) (items : list item) (s : string)
  : string :=
  match fuel with
  | O => s
  | S fuel' =>
      match s with
      | EmptyString => EmptyString
      | String c s' =>
          match match_here items s with
          | Some rest =>
              if (String.length rest <? String.length s)%nat
              then sub_empty_from fuel' items rest
              else String c (sub_empty_from fuel' items s')
          | None => String c (sub_empty_from fuel' items s')
          end
      end
  end.

Definition sub_empty (items : list item) (s : string) : string :=
  sub_empty_from (String.length s) items s.

(** [re.fullmatch]: the match at the head takes the whole string. *)
Definition fullmatch (items : list item) (s : string) : bool :=
  match match_here items s with
  | Some EmptyString => true
  | _ => false
  end.

End Re.

(** ** [financialdatapy/cik.py] *)

Module Cik.

(** A row of [cik_data['data']], to be read under the fields [cik], [name],
    [ticker], [exchange]: the cells it has, in the order of the fields.
    [mkRaw] is a row with a cell for each field; the other rows have fewer
    cells, or [5 + more] of them.  The first cell, the number, is always
    there. *)
Inductive RawRecord : Type :=
| mkRaw (cik : Z) (name ticker exchange : option string)
| Cells3 (cik : Z) (name ticker : option string)
| Cells2 (cik : Z) (name : option string)
| Cells1 (cik : Z)
| Cells5 (cik : Z) (name ticker exchange : option string) (more : nat).

(** The number of cells of a row. *)
Definition cells (r : RawRecord) : nat :=
  match r with
  | mkRaw _ _ _ _ => 4
  | Cells3 _ _ _ => 3
  | Cells2 _ _ => 2
  | Cells1 _ => 1
  | Cells5 _ _ _ _ more => 5 + more
  end.

(** The cells of a row as the DataFrame has them under the four fields: a
    cell that a short row lacks is [None]. *)
Definition raw_cik (r : RawRecord) : Z :=
  match r with
  | mkRaw cik _ _ _ | Cells3 cik _ _ | Cells2 cik _ | Cells1 cik
  | Cells5 cik _ _ _ _ => cik
  end.

Definition raw_name (r : RawRecord) : option string :=
  match r with
  | mkRaw _ name _ _ | Cells3 _ name _ | Cells2 _ name
  | Cells5 _ name _ _ _ => name
  | Cells1 _ => None
  end.

Definition raw_ticker (r : RawRecord) : option string :=
  match r with
  | mkRaw _ _ ticker _ | Cells3 _ _ ticker | Cells5 _ _ ticker _ _ => ticker
  | Cells2 _ _ | Cells1 _ => None
  end.

Definition raw_exchange (r : RawRecord) : option string :=
  match r with
  | mkRaw _ _ _ exchange | Cells5 _ _ _ exchange _ => exchange
  | Cells3 _ _ _ | Cells2 _ _ | Cells1 _ => None
  end.

(** [cik_data['fields']] has four names. *)
Definition number_of_fields : nat := 4.

Definition widest (data : list RawRecord) : nat :=
  fold_right (fun r m => Nat.max (cells r) m) 0 data.

(** Line 20, [pd.DataFrame(cik_data['data'], columns=cik_data['fields'])]:
    the rows are brought to the width of the widest one, and that has to be
    the number of fields, unless there is no row at all. *)
Definition makes_frame (data : list RawRecord) : bool :=
  match data with
  | [] => true
  | _ => Nat.eqb (widest data) number_of_fields
  end.

(** The rows of the frame are the rows of the payload, read through
    [raw_cik], [raw_name], [raw_ticker] and [raw_exchange]. *)
Definition DataFrame (data : list RawRecord) : result (list RawRecord) :=
  if makes_frame data then Ok data else Raise ValueError.

(** A row of the DataFrame that [get_cik] returns: the columns [cik], [name]
    and [ticker]. *)
Record Row : Type := mkRow {
  cik : string;
  name : string;
  ticker : option string
}.

(** Line 22: [cik_list['exchange'].str.upper()]; a missing cell stays
    missing. *)
Definition upper_exchange (r : RawRecord) : RawRecord :=
  mkRaw (raw_cik r) (raw_name r) (raw_ticker r)
        (option_map PyStr.upper (raw_exchange r)).

(** Lines 23-25: the mask [(exchange == 'NASDAQ') | (exchange == 'NYSE')];
    a missing cell equals neither. *)
Definition exchange_mask (r : RawRecord) : bool :=
  match raw_exchange r with
  | Some e => String.eqb e "NASDAQ" || String.eqb e "NYSE"
  | None => false
  end.

(** Line 33: [\s?(\/|\\)[a-zA-Z]*]. *)
Definition is_separator (c : ascii) : bool :=
  Ascii.eqb c "/" || Ascii.eqb c "\".

Definition is_a_z_A_Z (c : ascii) : bool :=
  PyStr.islower c || PyStr.isupper c.

Definition pattern : list Re.item :=
  [ (PyStr.isspace, Re.Opt); (is_separator, Re.One); (is_a_z_A_Z, Re.Star) ].

(** Line 34: [re.compile(pattern, flags=re.I)]. *)
Definition regex : list Re.item := Re.compile_I pattern.

(** The body of the comprehension of line 35 on one cell: [regex.sub] raises
    [TypeError] on a cell that is no string. *)
Definition regex_sub_cell (x : option string) : result string :=
  match x with
  | Some s => Ok (Re.sub_empty regex s)
  | None => Raise TypeError
  end.

(** Lines 27-38 on one row that passed the mask: the exchange column is
    dropped, [cik] becomes its [str], the name loses the matches of the
    pattern and goes through [capwords]; the ticker is carried as it is. *)
Definition clean_row (r : RawRecord) : result Row :=
  stripped <- regex_sub_cell (raw_name r) ;;
  Ok (mkRow (PyStr.str_int (raw_cik r)) (PyStr.capwords stripped)
            (raw_ticker r)).

(** [get_cik], from the decoded [cik_data['data']] on. *)
Definition get_cik (data : list RawRecord) : result (list Row) :=
  cik_list <- DataFrame data ;;
  let cik_list := map upper_exchange cik_list in
  let cik_list := filter exchange_mask cik_list in
  comprehension clean_row cik_list.

(** [cik_list['ticker'] == ticker] on one cell. *)
Definition ticker_is (t : string) (r : Row) : bool :=
  match ticker r with
  | Some t' => String.eqb t' t
  | None => false
  end.

(** Lines 61-62: [('0' * zeros) + str(cik)] with
    [zeros = 10 - len(str(cik))]. *)
Definition zero_fill (c : string) : string :=
  let zeros := (10 - Z.of_nat (String.length c))%Z in
  PyStr.repeat_char "0" zeros ++ c.

(** [search_cik]: [.item()] raises [ValueError] unless exactly one row has
    the ticker. *)
Definition search_cik (cik_list : list Row) (ticker : string)
  : result string :=
  let ticker := PyStr.upper ticker in
  let ticker_df := filter (ticker_is ticker) cik_list in
  match ticker_df with
  | [r] => Ok (zero_fill (cik r))
  | _ => Raise ValueError
  end.

(** The claim's reading of the name rule, for comparison with [regex.sub]:
    only a part at the end of the name is removed.  [suffixes s] lists the
    non-empty suffixes of [s], longest first. *)
Fixpoint suffixes (s : string) : list string :=
  match s with
  | EmptyString => []
  | String _ s' => s :: suffixes s'
  end.

Definition has_matching_suffix (s : string) : bool :=
  existsb (Re.fullmatch regex) (suffixes s).

(** The removal of the matches, written as a scan of the name: [in_token]
    says that the characters just read were a separator and letters after
    it. *)
Definition starts_with_separator (s : string) : bool :=
  match s with
  | String c _ => is_separator c
  | EmptyString => false
  end.

Fixpoint remove_tokens (in_token : bool) (s : string) : string :=
  match s with
  | EmptyString => EmptyString
  | String c s' =>
      if in_token && is_a_z_A_Z c then remove_tokens true s'
      else if is_separator c then remove_tokens true s'
      else if PyStr.isspace c && starts_with_separator s'
           then remove_tokens false s'
      else String c (remove_tokens false s')
  end.

End Cik.

(** ** [financialdatapy/market.py] *)

Module Market.

Record Market : Type := mkMarket { country_code : string }.

(** [Market.__init__]. *)
Definition init (country_code : string) : Market :=
  mkMarket (PyStr.upper country_code).

Section Collaborators.

(** The classes that [market.py] imports: what their constructors and
    methods return is not looked into. *)
Variables DataFrame Prices datetime UsFin KorFin : Type.
Variable CikList_search_cik : string -> result string.
Variable UsFinancials : string -> string -> string -> string -> result UsFin.
Variable Us_get_standard_financials : UsFin -> result DataFrame.
Variable Us_get_financials : UsFin -> result DataFrame.
Variable Us_open_report : UsFin -> result unit.
Variable KorFinancials : string -> string -> string -> result KorFin.
Variable Kor_get_standard_financials : KorFin -> result DataFrame.
Variable Kor_get_financials : KorFin -> result DataFrame.
Variable Kor_open_report : KorFin -> result unit.
Variable UsMarket : string -> datetime -> datetime -> result Prices.
Variable KorMarket : string -> datetime -> datetime -> result Prices.

Definition is_standard (type_of_financial : option string) : bool :=
  match type_of_financial with
  | Some t => String.eqb t "standard"
  | None => false
  end.

(** Lines 52-61, the body under [country_code == 'USA']; falling off the
    end after [open_report] returns [None]. *)
Definition usa_statement (symbol financial period : string) (web : bool)
    (type_of_financial : option string) : result (option DataFrame) :=
  comp_cik <- CikList_search_cik symbol ;;
  market <- UsFinancials symbol comp_cik financial period ;;
  if is_standard type_of_financial then
    df <- Us_get_standard_financials market ;; Ok (Some df)
  else if negb web then
    df <- Us_get_financials market ;; Ok (Some df)
  else
    _ <- Us_open_report market ;; Ok None.

(** Lines 63-70, the body under [country_code == 'KOR']. *)
Definition kor_statement (symbol financial period : string) (web : bool)
    (type_of_financial : option string) : result (option DataFrame) :=
  market <- KorFinancials symbol financial period ;;
  if is_standard type_of_financial then
    df <- Kor_get_standard_financials market ;; Ok (Some df)
  else if negb web then
    df <- Kor_get_financials market ;; Ok (Some df)
  else
    _ <- Kor_open_report market ;; Ok None.

Definition financial_statement (self : Market)
    (symbol financial period : string) (web : bool)
    (type_of_financial : option string) : result (option DataFrame) :=
  if String.eqb (country_code self) "USA" then
    usa_statement symbol financial period web type_of_financial
  else if String.eqb (country_code self) "KOR" then
    kor_statement symbol financial period web type_of_financial
  else Raise NotAvailable.

Definition historical_price (self : Market) (symbol : string)
    (start end_ : datetime) : result Prices :=
  if String.eqb (country_code self) "USA" then UsMarket symbol start end_
  else if String.eqb (country_code self) "KOR" then
    KorMarket symbol start end_
  else Raise NotAvailable.

End Collaborators.

End Market.

(** ** [scripts/connect.py] *)

Module Connect.

Section Collaborators.

Variables Database Config : Type.
(** [open('config/config.yml')] and [yaml.safe_load]. *)
Variable load_config : result Config.
(** [config['user']['mysql_password']]. *)
Variable mysql_password : Config -> result string.
(** The constructor of [scripts.database.Database]. *)
Variable Database_new : string -> string -> string -> result Database.

(** [connect_db], with the lines printed so far; a function that ends
    without [return] gives [None]. *)
Definition connect_db (stdout : list string)
  : result (option Database) * list string :=
  match load_config with
  | Raise e => (Raise e, stdout)
  | Ok config =>
      match mysql_password config with
      | Raise e => (Raise e, stdout)
      | Ok mysql_pw =>
          let db_name := "us_stock" in
          let table_name := "stock_list" in
          match Database_new mysql_pw db_name table_name with
          | Ok db => (Ok (Some db), stdout)
          | Raise e =>
              if is_Exception e
              then (Ok None, stdout ++ [exc_str e])
              else (Raise e, stdout)
          end
      end
  end.

End Collaborators.

End Connect.

(** ** [scripts/main.py] and the module [stocklist] it calls *)

Module Stocklist.

Record ListingRecord : Type := mkListing {
  id : string;
  name : string;
  ticker : string
}.

Record Changeset : Type := mkChangeset {
  added : list ListingRecord;
  removed : list ListingRecord;
  changed : list (ListingRecord * ListingRecord)
}.

Definition has_ticker (l : list ListingRecord) (t : string) : bool :=
  existsb (fun r => String.eqb (ticker r) t) l.

Definition differs (old new : ListingRecord) : bool :=
  String.eqb (ticker old) (ticker new)
  && (negb (String.eqb (id old) (id new))
      || negb (String.eqb (name old) (name new))).

(** Modelled from the spec: [stocklist.check_diff], whose module is not
    among the sources.  [added] are the records of [latest] whose ticker has
    no match in [prior], [removed] the records of [prior] whose ticker has no
    match in [latest], [changed] the pairs with the same ticker whose [id]
    or [name] differs. *)
Definition check_diff (prior latest : list ListingRecord) : Changeset :=
  mkChangeset
    (filter (fun r => negb (has_ticker prior (ticker r))) latest)
    (filter (fun r => negb (has_ticker latest (ticker r))) prior)
    (flat_map (fun old => map (pair old) (filter (differs old) latest)) prior).

Definition empty_changeset : Changeset := mkChangeset [] [] [].

(** The invariant of a canonical listing: the ticker is a key. *)
Definition canonical (l : list ListingRecord) : Prop :=
  NoDup (map ticker l).

End Stocklist.

Module Main.

Import Stocklist.

(** What the script meets when it runs: the outcome of
    [stocklist.get_stock_list()], the outcome of the constructor of
    [database.Database], the table that [db.read_db()] reads, and the
    changesets printed so far. *)
Record World : Type := mkWorld {
  fetched : result (list ListingRecord);
  connected : result unit;
  stock_table : list ListingRecord;
  stdout : list Changeset
}.

(** The block under [if __name__ == '__main__']. *)
Definition main (w : World) : result unit * World :=
  match fetched w with
  | Raise e => (Raise e, w)
  | Ok latest_stock_list =>
      match connected w with
      | Raise e => (Raise e, w)
      | Ok _ =>
          let old_stock_list := stock_table w in
          let diff := check_diff old_stock_list latest_stock_list in
          (Ok tt,
           mkWorld (fetched w) (connected w) (stock_table w)
                   (stdout w ++ [diff]))
      end
  end.

End Main.

(** ** Predicates of the statements *)

Module Props.

Import Cik.

(** What a rendering [d] of the number [n] has to satisfy: digits only, the
    value [n], and no more digits than [n] needs. *)
Definition renders (d : string) (n : Z) : Prop :=
  PyStr.forallb_chars PyStr.isdigit d = true
  /\ (forall a,
         PyStr.int_from a d
         = (a * 10 ^ Z.of_nat (String.length d) + n)%Z)
  /\ (String.length d = 1
      \/ (10 ^ (Z.of_nat (String.length d) - 1) <= n)%Z).

(** Two items with the same quantifier and classes that accept the same
    characters. *)
Definition same_item (i j : Re.item) : Prop :=
  snd i = snd j /\ forall c, fst i c = fst j c.

(** Comparison of two strings without regard to letter case. *)
Definition same_caseless (a b : string) : Prop :=
  PyStr.lower a = PyStr.lower b.

Definition allow_list : list string := ["NASDAQ"; "NYSE"].

(** The exchange of the record is, letter case apart, on the allow-list. *)
Definition on_allow_list (r : RawRecord) : Prop :=
  exists e x,
    raw_exchange r = Some e /\ In x allow_list /\ same_caseless e x.

(** The mask of [get_cik] as a test on the record as it was received. *)
Definition listed (r : RawRecord) : bool :=
  exchange_mask (upper_exchange r).

(** The row [o] is what [get_cik] makes of the record [r]. *)
Definition cleaned (r : RawRecord) (o : Row) : Prop :=
  cik o = PyStr.str_int (raw_cik r)
  /\ ticker o = raw_ticker r
  /\ exists x, raw_name r = Some x
               /\ name o = PyStr.capwords (Re.sub_empty regex x).

(** A record that passes the mask and has no name. *)
Definition nameless (r : RawRecord) : Prop :=
  listed r = true /\ raw_name r = None.

(** A token as the pattern matches it whole: at most one whitespace
    character, a separator, letters. *)
Definition is_token (t : string) : Prop :=
  exists sp sep letters,
    t = (sp ++ String sep letters)%string
    /\ (sp = EmptyString
        \/ exists w, PyStr.isspace w = true /\ sp = String w EmptyString)
    /\ is_separator sep = true
    /\ PyStr.forallb_chars is_a_z_A_Z letters = true.

Definition no_separator (s : string) : Prop :=
  PyStr.forallb_chars (fun c => negb (is_separator c)) s = true.

End Props.

Import Props.

(** ** Sample inputs *)

Module Samples.

Import Cik.

Definition apple : RawRecord :=
  mkRaw 320193 (Some "Apple Inc.") (Some "AAPL") (Some "Nasdaq").

Definition qualcomm : RawRecord :=
  mkRaw 1652044 (Some "Qualcomm Inc\De") (Some "qcom") (Some "nasdaq").

Definition over_the_counter : RawRecord :=
  mkRaw 1288750 (Some "Acme Holdings") (Some "ACMH") (Some "OTC").

Definition no_name : RawRecord :=
  mkRaw 1090872 None (Some "A") (Some "NYSE").

(** Two share classes filed under one ticker. *)
Definition class_a : RawRecord :=
  mkRaw 1652044 (Some "Alphabet Inc.") (Some "GOOG") (Some "Nasdaq").

Definition class_c : RawRecord :=
  mkRaw 1652044 (Some "Alphabet Inc. Class C") (Some "GOOG") (Some "Nasdaq").

(** A name with a token that is not at its end. *)
Definition token_inside : RawRecord :=
  mkRaw 70858 (Some "Bank/De Of America") (Some "BAC") (Some "NYSE").

(** A row of three cells: the exchange is not there. *)
Definition three_cells : RawRecord :=
  Cells3 1090872 (Some "Agilent Technologies") (Some "A").

(** A row of five cells. *)
Definition five_cells : RawRecord :=
  Cells5 320193 (Some "Apple Inc.") (Some "AAPL") (Some "Nasdaq") 0.

End Samples.

Module ScriptSamples.

Import Stocklist.

Definition apple : ListingRecord :=
  mkListing "0000320193" "Apple Inc" "AAPL".

Definition amazon : ListingRecord :=
  mkListing "0001018724" "Amazon Com Inc" "AMZN".

(** A first run: the registry answers, the database is reachable and its
    table is empty. *)
Definition first_run : Main.World :=
  Main.mkWorld (Ok [apple; amazon]) (Ok tt) [] [].

(** A database that refuses the password. *)
Definition access_denied (mysql_pw db_name table_name : string)
  : result unit :=
  Raise (OtherException "Access denied for user").

End ScriptSamples.

(** ** [financialdatapy/stock.py] *)

Module Stock.

(** The exceptions that [stock.py] meets: the ones above, [AttributeError],
    and the class that the module declares. *)
Inductive Exc : Type :=
| Py (e : PyExc)
| AttributeError
| CountryCodeValidationFailed (msg : string).

Inductive outcome (A : Type) : Type :=
| Returns (a : A)
| Raises (e : Exc).
Arguments Returns {A} a.
Arguments Raises {A} e.

Definition and_then {A B : Type} (m : outcome A) (f : A -> outcome B)
  : outcome B :=
  match m with
  | Returns a => f a
  | Raises e => Raises e
  end.

(** *** The pattern [\b[a-zA-Z]{3}\b]

    A pattern without optional parts: classes repeated a fixed number of
    times, and the assertion [\b], which looks at the character before the
    position and the one at it. *)

Inductive atom : Type :=
| Times (cls : ascii -> bool) (n : nat)   (* [x]{n} *)
| WordBoundary.                           (* \b *)

(** The letters and digits beyond 127: the two ordinal indicators, the
    micro sign, the superscript digits, the three fractions, and the letters
    from 192 on but the two signs in their middle. *)
Definition latin_alnum (c : ascii) : bool :=
  PyStr.between 170 170 c || PyStr.between 178 179 c
  || PyStr.between 181 181 c || PyStr.between 185 186 c
  || PyStr.between 188 190 c || PyStr.between 192 214 c
  || PyStr.between 216 246 c || PyStr.between 248 255 c.

(** [\w]: letters, digits and the underscore. *)
Definition is_word (c : ascii) : bool :=
  PyStr.islower c || PyStr.isupper c || PyStr.isdigit c || Ascii.eqb c "_"
  || latin_alnum c.

Definition is_word_opt (c : option ascii) : bool :=
  match c with
  | Some c => is_word c
  | None => false
  end.

Definition head (s : string) : option ascii :=
  match s with
  | String c _ => Some c
  | EmptyString => None
  end.

(** [\b] holds between [prev] and the head of [s] when exactly one of the
    two is a word character. *)
Definition at_boundary (prev : option ascii) (s : string) : bool :=
  xorb (is_word_opt prev) (is_word_opt (head s)).

(** The text that the atoms match at the head of [s], [prev] being the
    character before it. *)
Fixpoint match_at (prev : option ascii) (atoms : list atom) (s : string)
  : option string :=
  match atoms with
  | [] => Some EmptyString
  | WordBoundary :: atoms' =>
      if at_boundary prev s then match_at prev atoms' s else None
  | Times cls n :: atoms' =>
      (fix times (n : nat) (prev : option ascii) (s : string)
         : option string :=
         match n with
         | O => match_at prev atoms' s
         | S n' =>
             match s with
             | String c s' =>
                 if cls c
                 then option_map (String c) (times n' (Some c) s')
                 else None
             | EmptyString => None
             end
         end) n prev s
  end.

(** [re.search(...).group()]: the match at the first position that has
    one; [None] when no position has. *)
Fixpoint search_from (prev : option ascii) (atoms : list atom) (s : string)
  : option string :=
  match match_at prev atoms s with
  | Some m => Some m
  | None =>
      match s with
      | String c s' => search_from (Some c) atoms s'
      | EmptyString => None
      end
  end.

Definition re_search (atoms : list atom) (s : string) : option string :=
  search_from None atoms s.

Definition alpha3 : list atom :=
  [WordBoundary; Times Cik.is_a_z_A_Z 3; WordBoundary].

Definition alpha3_message : string :=
  "Country code should be in alpha-3 code (ISO 3166) e.g. USA".

(** The [try] block of [__validate_country_code]: [re.search] raises
    [TypeError] on an argument that is no string ([None] here), and
    [.group()] raises [AttributeError] on the [None] that a failed search
    returns. *)
Definition search_and_upper (country_code : option string)
  : outcome string :=
  match country_code with
  | None => Raises (Py TypeError)
  | Some s =>
      match re_search alpha3 s with
      | None => Raises AttributeError
      | Some m => Returns (PyStr.upper m)
      end
  end.

(** [Stock.__validate_country_code]: [except (TypeError, AttributeError)]
    raises the module's own exception. *)
Definition validate_country_code (country_code : option string)
  : outcome string :=
  match search_and_upper country_code with
  | Raises (Py TypeError) | Raises AttributeError =>
      Raises (CountryCodeValidationFailed alpha3_message)
  | other => other
  end.

Record Stock : Type := mkStock {
  symbol : string;
  country_code : string
}.

(** [Stock.__init__]; [country_code] defaults to ['USA']. *)
Definition init (symbol : string) (country_code : option string)
  : outcome Stock :=
  and_then (validate_country_code country_code)
           (fun code => Returns (mkStock symbol code)).

Definition init_default (symbol : string) : outcome Stock :=
  init symbol (Some "USA").

(** A cell of the [cik] column of [StockList.us_stock_list]: the number as
    the source gives it, or a string. *)
Inductive cik_cell : Type :=
| CikInt (n : Z)
| CikStr (s : string).

(** [str(cik)]. *)
Definition str (c : cik_cell) : string :=
  match c with
  | CikInt n => PyStr.str_int n
  | CikStr s => s
  end.

Record StockRow : Type := mkStockRow {
  cik : cik_cell;
  name : string;
  ticker : option string
}.

Definition ticker_is (t : string) (r : StockRow) : bool :=
  match ticker r with
  | Some t' => String.eqb t' t
  | None => false
  end.

(** [StockList.search_cik], the class variable [us_stock_list] passed in;
    [.item()] raises [ValueError] unless exactly one row is left. *)
Definition search_cik (us_stock_list : list StockRow) (symbol : string)
  : outcome string :=
  let symbol := PyStr.upper symbol in
  let stock_list := us_stock_list in
  let symbol_df := filter (ticker_is symbol) stock_list in
  match symbol_df with
  | [r] =>
      let cik := cik r in
      let zeros := (10 - Z.of_nat (String.length (str cik)))%Z in
      Returns (PyStr.repeat_char "0" zeros ++ str cik)%string
  | _ => Raises (Py ValueError)
  end.

Section Collaborators.

(** [UsFinancials] and [UsMarket] are imported classes. *)
Variables DataFrame UsFin UsPrices : Type.
Variable UsFinancials : string -> string -> string -> outcome UsFin.
Variable get_financials : UsFin -> string -> outcome DataFrame.
Variable get_standard_financials : UsFin -> outcome DataFrame.
Variable UsMarket : string -> string -> option string -> outcome UsPrices.
Variable get_price_data : UsPrices -> outcome DataFrame.

(** [Stock.financials]; the defaults are ['income_statement'] and
    ['annual']. *)
Definition financials (us_stock_list : list StockRow) (self : Stock)
    (financial period : string) : outcome DataFrame :=
  and_then (search_cik us_stock_list (symbol self)) (fun comp_cik =>
  and_then (UsFinancials (symbol self) financial period) (fun market =>
  get_financials market comp_cik)).

(** [Stock.standard_financials]. *)
Definition standard_financials (self : Stock) (financial period : string)
  : outcome DataFrame :=
  and_then (UsFinancials (symbol self) financial period)
           get_standard_financials.

(** [Stock.historical]; [start] defaults to ['1900-01-01'], [end] to
    [None]. *)
Definition historical (self : Stock) (start : string) (end_ : option string)
  : outcome DataFrame :=
  and_then (UsMarket (symbol self) start end_) get_price_data.

End Collaborators.

(** A row of [cik.py] as a row of the stock list. *)
Definition of_cik_row (r : Cik.Row) : StockRow :=
  mkStockRow (CikStr (Cik.cik r)) (Cik.name r) (Cik.ticker r).

End Stock.

(** ** Predicates of the further statements *)

Module Props2.

(** The last character of [s]. *)
Fixpoint last_char (s : string) : option ascii :=
  match s with
  | EmptyString => None
  | String c EmptyString => Some c
  | String _ s' => last_char s'
  end.

(** [m] is a word of three letters of [pre ++ m ++ post]: no word character
    right before it nor right after it. *)
Definition alpha3_word (pre m post : string) : Prop :=
  String.length m = 3
  /\ PyStr.forallb_chars Cik.is_a_z_A_Z m = true
  /\ Stock.is_word_opt (last_char pre) = false
  /\ Stock.is_word_opt (Stock.head post) = false.

(** The ticker of the row is in upper case, as [search_cik] asks for it. *)
Definition upper_ticker (r : Cik.Row) : bool :=
  match Cik.ticker r with
  | Some t => String.eqb (PyStr.upper t) t
  | None => false
  end.

(** What [get_cik] makes of one name. *)
Definition clean_name (x : string) : string :=
  PyStr.capwords (Re.sub_empty Cik.regex x).

(** [b] follows [a] in the batch: the two results joined, the first
    exception met being raised. *)
Definition join_results {A : Type} (a b : result (list A))
  : result (list A) :=
  xs <- a ;; ys <- b ;; Ok (xs ++ ys).

(** A class of characters that the case functions do not leave. *)
Definition case_blind (p : ascii -> bool) : Prop :=
  (forall c, p (PyStr.upper_char c) = p c)
  /\ (forall c, p (PyStr.lower_char c) = p c).

(** The words of [split]: not empty, and without whitespace. *)
Definition split_word (w : string) : Prop :=
  w <> EmptyString
  /\ PyStr.forallb_chars (fun c => negb (PyStr.isspace c)) w = true.

(** The cell holds the ticker [u]. *)
Definition is_ticker (u : string) (t : option string) : bool :=
  match t with
  | Some t' => String.eqb t' u
  | None => false
  end.

(** The character before a position: the last one of [pre], or [prev] when
    [pre] is empty. *)
Definition last_after (prev : option ascii) (pre : string) : option ascii :=
  match last_char pre with
  | Some c => Some c
  | None => prev
  end.

(** An outcome of [cik.py] as an outcome of [stock.py]. *)
Definition of_result {A : Type} (r : result A) : Stock.outcome A :=
  match r with
  | Ok a => Stock.Returns a
  | Raise e => Stock.Raises (Stock.Py e)
  end.

(** The row [o] has the number and the ticker of the record [r]. *)
Definition from_record (r : Cik.RawRecord) (o : Cik.Row) : Prop :=
  Cik.cik o = PyStr.str_int (Cik.raw_cik r)
  /\ Cik.ticker o = Cik.raw_ticker r.

(** The strings of [ts] one after the other. *)
Fixpoint concat_all (ts : list string) : string :=
  match ts with
  | [] => EmptyString
  | t :: ts' => (t ++ concat_all ts')%string
  end.

(** Every listed record of the batch has a name. *)
Definition all_named (data : list Cik.RawRecord) : Prop :=
  forall r, In r data -> listed r = true -> Cik.raw_name r <> None.

End Props2.

Import Props2.

(** * Properties *)

(** ** Strings *)

Section StringFacts.

Lemma string_app_nil_r (s : string) : (s ++ "")%string = s.
Proof. induction s as [|c s IH]; simpl; congruence. Qed.

Lemma string_app_assoc (s t u : string) : ((s ++ t) ++ u = s ++ t ++ u)%string.
Proof. induction s as [|c s IH]; simpl; congruence. Qed.

Lemma string_length_app (s t : string) :
  String.length (s ++ t)%string = String.length s + String.length t.
Proof. induction s as [|c s IH]; simpl; congruence. Qed.

Lemma forallb_chars_app (p : ascii -> bool) (s t : string) :
  PyStr.forallb_chars p (s ++ t)%string
  = PyStr.forallb_chars p s && PyStr.forallb_chars p t.
Proof.
  induction s as [|c s IH]; simpl; [reflexivity|].
  rewrite IH. apply andb_assoc.
Qed.

Lemma int_from_app (s t : string) (a : Z) :
  PyStr.int_from a (s ++ t)%string = PyStr.int_from (PyStr.int_from a s) t.
Proof. revert a. induction s as [|c s IH]; intro a; simpl; auto. Qed.

Lemma repeat_char_length (c : ascii) (n : Z) :
  String.length (PyStr.repeat_char c n) = Z.to_nat n.
Proof.
  unfold PyStr.repeat_char.
  induction (Z.to_nat n) as [|k IH]; simpl; congruence.
Qed.

Lemma repeat_char_forallb (p : ascii -> bool) (c : ascii) (n : Z) :
  p c = true -> PyStr.forallb_chars p (PyStr.repeat_char c n) = true.
Proof.
  intro Hc. unfold PyStr.repeat_char.
  induction (Z.to_nat n) as [|k IH]; simpl; [reflexivity|].
  now rewrite Hc, IH.
Qed.

Lemma repeat_zero_int_from (n : Z) :
  PyStr.int_from 0 (PyStr.repeat_char "0" n) = 0%Z.
Proof.
  unfold PyStr.repeat_char.
  induction (Z.to_nat n) as [|k IH]; simpl; [reflexivity|exact IH].
Qed.

End StringFacts.

(** ** Decimal rendering *)

Section Decimal.

Local Open Scope Z_scope.

Lemma digit_cases (d : Z) :
  0 <= d < 10 ->
  d = 0 \/ d = 1 \/ d = 2 \/ d = 3 \/ d = 4 \/ d = 5 \/ d = 6 \/ d = 7
  \/ d = 8 \/ d = 9.
Proof. lia. Qed.

Lemma digit_char_isdigit (d : Z) :
  0 <= d < 10 -> PyStr.isdigit (PyStr.digit_char d) = true.
Proof.
  intro H. destruct (digit_cases d H) as [-> | H'];
    [reflexivity | repeat (destruct H' as [-> | H']; [reflexivity|])].
  subst. reflexivity.
Qed.

Lemma digit_val_char (d : Z) :
  0 <= d < 10 -> PyStr.digit_val (PyStr.digit_char d) = d.
Proof.
  intro H. destruct (digit_cases d H) as [-> | H'];
    [reflexivity | repeat (destruct H' as [-> | H']; [reflexivity|])].
  subst. reflexivity.
Qed.

Lemma digits_from_renders (fuel : nat) :
  forall n acc,
    0 <= n < 2 ^ Z.of_nat fuel ->
    (0 < fuel)%nat ->
    exists d, PyStr.digits_from fuel n acc = (d ++ acc)%string
              /\ renders d n.
Proof.
  induction fuel as [|fuel IH]; intros n acc Hn Hfuel; [lia|].
  assert (Hmod : 0 <= n mod 10 < 10) by (apply Z.mod_pos_bound; lia).
  assert (Hdiv : n = 10 * (n / 10) + n mod 10) by (apply Z.div_mod; lia).
  simpl PyStr.digits_from.
  destruct (Z.eqb_spec (n / 10) 0) as [Hz | Hnz].
  - exists (String (PyStr.digit_char (n mod 10)) "").
    split; [reflexivity|]. repeat split.
    + simpl. now rewrite digit_char_isdigit.
    + intro a. cbn [PyStr.int_from String.length].
      rewrite digit_val_char by assumption.
      change (Z.of_nat 1) with 1. rewrite Z.pow_1_r. lia.
    + now left.
  - assert (Hq : 0 < n / 10) by (assert (0 <= n / 10) by (apply Z.div_pos; lia); lia).
    assert (Hlt : n / 10 < 2 ^ Z.of_nat fuel).
    { apply Z.div_lt_upper_bound; [lia|].
      rewrite Nat2Z.inj_succ, Z.pow_succ_r in Hn by lia. lia. }
    assert (Hf : (0 < fuel)%nat).
    { destruct fuel; [simpl in Hlt; lia | lia]. }
    destruct (IH (n / 10) (String (PyStr.digit_char (n mod 10)) acc))
      as (d & Heq & Hdig & Hval & Hlen); [lia | assumption |].
    exists (d ++ String (PyStr.digit_char (n mod 10)) "")%string.
    split; [rewrite Heq, string_app_assoc; reflexivity|].
    repeat split.
    + rewrite forallb_chars_app, Hdig. simpl.
      now rewrite digit_char_isdigit.
    + intro a. rewrite int_from_app, Hval. cbn [PyStr.int_from].
      rewrite digit_val_char by assumption.
      rewrite string_length_app. simpl String.length.
      replace (Z.of_nat (String.length d + 1))
        with (Z.succ (Z.of_nat (String.length d))) by lia.
      rewrite Z.pow_succ_r by lia. lia.
    + right. rewrite string_length_app. simpl String.length.
      replace (Z.of_nat (String.length d + 1) - 1)
        with (Z.succ (Z.of_nat (String.length d) - 1)) by lia.
      destruct Hlen as [H1 | Hge].
      * rewrite H1. change (Z.succ (Z.of_nat 1 - 1)) with 1.
        rewrite Z.pow_1_r. lia.
      * assert (0 <= Z.of_nat (String.length d) - 1).
        { destruct d as [|c d'].
          - specialize (Hval 0). cbn in Hval. lia.
          - cbn [String.length]. lia. }
        rewrite Z.pow_succ_r by assumption. lia.
Qed.

Lemma str_nonneg_renders (n : Z) :
  0 <= n -> renders (PyStr.str_nonneg n) n.
Proof.
  intro Hn. unfold PyStr.str_nonneg.
  destruct (digits_from_renders (S (Z.to_nat (Z.log2 n))) n "")
    as (d & Heq & Hr).
  - split; [assumption|].
    destruct (Z.eq_dec n 0) as [-> | Hnz]; [reflexivity|].
    rewrite Nat2Z.inj_succ, Z2Nat.id by apply Z.log2_nonneg.
    apply Z.log2_spec. lia.
  - lia.
  - rewrite Heq, string_app_nil_r. exact Hr.
Qed.

Lemma renders_length_le (d : string) (n k : Z) :
  renders d n -> 1 <= k -> n < 10 ^ k -> Z.of_nat (String.length d) <= k.
Proof.
  intros (_ & _ & [H1 | Hge]) Hk Hn; [lia|].
  destruct (Z_le_gt_dec (Z.of_nat (String.length d)) k) as [|Hgt];
    [assumption|exfalso].
  assert (10 ^ k <= 10 ^ (Z.of_nat (String.length d) - 1))
    by (apply Z.pow_le_mono_r; lia).
  lia.
Qed.

(** Filling with zeros up to ten characters keeps the value. *)
Lemma zero_fill_renders (c : string) (n : Z) :
  renders c n -> 0 <= n < 10 ^ 10 ->
  String.length (Cik.zero_fill c) = 10%nat
  /\ PyStr.forallb_chars PyStr.isdigit (Cik.zero_fill c) = true
  /\ PyStr.int_of_digits (Cik.zero_fill c) = n.
Proof.
  intros Hr Hn.
  assert (Hlen : Z.of_nat (String.length c) <= 10)
    by (apply (renders_length_le c n); [assumption | lia | lia]).
  destruct Hr as (Hdig & Hval & _).
  unfold Cik.zero_fill. repeat split.
  - rewrite string_length_app, repeat_char_length. lia.
  - rewrite forallb_chars_app, Hdig, repeat_char_forallb; reflexivity.
  - unfold PyStr.int_of_digits.
    rewrite int_from_app, repeat_zero_int_from, Hval. lia.
Qed.

End Decimal.

(** ** The pattern of [get_cik] *)

Section Pattern.

Ltac by_cases_on c :=
  destruct c as [[] [] [] [] [] [] [] []]; vm_compute; congruence.

Lemma ignorecase_isspace (c : ascii) :
  Re.ignorecase PyStr.isspace c = PyStr.isspace c.
Proof. by_cases_on c. Qed.

Lemma ignorecase_separator (c : ascii) :
  Re.ignorecase Cik.is_separator c = Cik.is_separator c.
Proof. by_cases_on c. Qed.

Lemma ignorecase_a_z_A_Z (c : ascii) :
  Re.ignorecase Cik.is_a_z_A_Z c = Cik.is_a_z_A_Z c.
Proof. by_cases_on c. Qed.

Lemma isspace_not_separator (c : ascii) :
  PyStr.isspace c = true -> Cik.is_separator c = false.
Proof. by_cases_on c. Qed.

Lemma isspace_not_letter (c : ascii) :
  PyStr.isspace c = true -> Cik.is_a_z_A_Z c = false.
Proof. by_cases_on c. Qed.

Lemma separator_not_letter (c : ascii) :
  Cik.is_separator c = true -> Cik.is_a_z_A_Z c = false.
Proof. by_cases_on c. Qed.

Lemma match_here_ext (items items' : list Re.item) :
  Forall2 same_item items items' ->
  forall s, Re.match_here items s = Re.match_here items' s.
Proof.
  induction 1 as [| [cls q] [cls' q'] items items' [Hq Hcls] _ IH];
    [reflexivity|].
  simpl in Hq, Hcls. subst q'.
  destruct q; intro s.
  - destruct s as [|c s]; simpl; [reflexivity|].
    rewrite Hcls, IH. reflexivity.
  - destruct s as [|c s]; simpl; [apply IH|].
    rewrite Hcls, !IH. reflexivity.
  - induction s as [|c s IHs].
    + simpl. apply IH.
    + cbn [Re.match_here] in *. rewrite Hcls, IHs, IH. reflexivity.
Qed.

Lemma regex_is_pattern (s : string) :
  Re.match_here Cik.regex s = Re.match_here Cik.pattern s.
Proof.
  apply match_here_ext. unfold Cik.regex, Cik.pattern, Re.compile_I.
  simpl. repeat constructor; simpl.
  - apply ignorecase_isspace.
  - apply ignorecase_separator.
  - apply ignorecase_a_z_A_Z.
Qed.

Lemma match_star_last (cls : ascii -> bool) (t : string) :
  Re.match_here [(cls, Re.Star)] t = Some (PyStr.drop_while cls t).
Proof.
  induction t as [|c t IH]; [reflexivity|].
  cbn [Re.match_here PyStr.drop_while] in *.
  destruct (cls c); [rewrite IH|]; reflexivity.
Qed.

Lemma match_separator_letters (s : string) :
  Re.match_here [(Cik.is_separator, Re.One); (Cik.is_a_z_A_Z, Re.Star)] s
  = match s with
    | String c s' =>
        if Cik.is_separator c
        then Some (PyStr.drop_while Cik.is_a_z_A_Z s')
        else None
    | EmptyString => None
    end.
Proof.
  destruct s as [|c s]; [reflexivity|].
  change (Re.match_here
            [(Cik.is_separator, Re.One); (Cik.is_a_z_A_Z, Re.Star)]
            (String c s))
    with (if Cik.is_separator c
          then Re.match_here [(Cik.is_a_z_A_Z, Re.Star)] s else None).
  now rewrite match_star_last.
Qed.

(** Where the pattern matches, and what it leaves. *)
Lemma match_pattern (c : ascii) (s : string) :
  Re.match_here Cik.regex (String c s)
  = if Cik.is_separator c then Some (PyStr.drop_while Cik.is_a_z_A_Z s)
    else if PyStr.isspace c && Cik.starts_with_separator s
         then match s with
              | String _ s' => Some (PyStr.drop_while Cik.is_a_z_A_Z s')
              | EmptyString => None
              end
    else None.
Proof.
  rewrite regex_is_pattern.
  change (Re.match_here Cik.pattern (String c s))
    with (if PyStr.isspace c then
            match Re.match_here
                    [(Cik.is_separator, Re.One); (Cik.is_a_z_A_Z, Re.Star)] s
            with
            | Some rest => Some rest
            | None =>
                Re.match_here
                  [(Cik.is_separator, Re.One); (Cik.is_a_z_A_Z, Re.Star)]
                  (String c s)
            end
          else
            Re.match_here
              [(Cik.is_separator, Re.One); (Cik.is_a_z_A_Z, Re.Star)]
              (String c s)).
  rewrite !match_separator_letters.
  destruct (PyStr.isspace c) eqn:Hsp.
  - rewrite (isspace_not_separator c Hsp). simpl.
    destruct s as [|d s]; [reflexivity|]. simpl.
    destruct (Cik.is_separator d); reflexivity.
  - simpl. destruct (Cik.is_separator c); reflexivity.
Qed.

Lemma drop_while_length (p : ascii -> bool) (s : string) :
  String.length (PyStr.drop_while p s) <= String.length s.
Proof.
  induction s as [|c s IH]; simpl; [lia|].
  destruct (p c); simpl; lia.
Qed.

(** Inside a token the scan is at the same point as after its letters. *)
Lemma remove_tokens_in_token (s : string) :
  Cik.remove_tokens true s
  = Cik.remove_tokens false (PyStr.drop_while Cik.is_a_z_A_Z s).
Proof.
  induction s as [|c s IH]; [reflexivity|].
  cbn [PyStr.drop_while].
  destruct (Cik.is_a_z_A_Z c) eqn:Hl.
  - cbn [Cik.remove_tokens]. rewrite Hl. simpl. exact IH.
  - cbn [Cik.remove_tokens]. rewrite Hl. reflexivity.
Qed.

Lemma sub_empty_from_scan (fuel : nat) :
  forall s, String.length s <= fuel ->
            Re.sub_empty_from fuel Cik.regex s = Cik.remove_tokens false s.
Proof.
  induction fuel as [|fuel IH]; intros s Hlen.
  - destruct s; [reflexivity | simpl in Hlen; lia].
  - destruct s as [|c s]; [reflexivity|].
    cbn [String.length] in Hlen.
    cbn [Re.sub_empty_from Cik.remove_tokens]. rewrite match_pattern.
    cbn [andb].
    destruct (Cik.is_separator c) eqn:Hsep.
    + pose proof (drop_while_length Cik.is_a_z_A_Z s) as Hd.
      cbn [String.length].
      destruct (Nat.ltb_spec (String.length (PyStr.drop_while Cik.is_a_z_A_Z s))
                             (S (String.length s))) as [_ | Hge]; [|lia].
      rewrite IH by lia. symmetry. apply remove_tokens_in_token.
    + destruct (PyStr.isspace c && Cik.starts_with_separator s) eqn:Hws.
      * destruct s as [|d s]; [simpl in Hws; now rewrite andb_false_r in Hws|].
        apply andb_prop in Hws. destruct Hws as [_ Hd]. simpl in Hd.
        pose proof (drop_while_length Cik.is_a_z_A_Z s) as Hlen'.
        cbn [String.length] in *.
        destruct (Nat.ltb_spec
                    (String.length (PyStr.drop_while Cik.is_a_z_A_Z s))
                    (S (S (String.length s)))) as [_ | Hge]; [|lia].
        rewrite IH by lia.
        cbn [Cik.remove_tokens andb]. rewrite Hd.
        symmetry. apply remove_tokens_in_token.
      * rewrite IH by lia. reflexivity.
Qed.

(** [regex.sub('', s)] is the scan that leaves the tokens out. *)
Lemma regex_sub_scan (s : string) :
  Re.sub_empty Cik.regex s = Cik.remove_tokens false s.
Proof. apply sub_empty_from_scan. lia. Qed.

End Pattern.

(** ** Letter case *)

Section LetterCase.

Ltac by_cases_on c :=
  destruct c as [[] [] [] [] [] [] [] []]; vm_compute; congruence.

Lemma lower_upper_char (c : ascii) :
  PyStr.lower_char (PyStr.upper_char c) = PyStr.lower_char c.
Proof. by_cases_on c. Qed.

Lemma upper_lower_char (c : ascii) :
  PyStr.upper_char (PyStr.lower_char c) = PyStr.upper_char c.
Proof. by_cases_on c. Qed.

Lemma upper_upper_char (c : ascii) :
  PyStr.upper_char (PyStr.upper_char c) = PyStr.upper_char c.
Proof. by_cases_on c. Qed.

Lemma lower_upper (s : string) : PyStr.lower (PyStr.upper s) = PyStr.lower s.
Proof.
  induction s as [|c s IH]; [reflexivity|].
  cbn. rewrite lower_upper_char. f_equal. exact IH.
Qed.

Lemma upper_lower (s : string) : PyStr.upper (PyStr.lower s) = PyStr.upper s.
Proof.
  induction s as [|c s IH]; [reflexivity|].
  cbn. rewrite upper_lower_char. f_equal. exact IH.
Qed.

Lemma upper_upper (s : string) : PyStr.upper (PyStr.upper s) = PyStr.upper s.
Proof.
  induction s as [|c s IH]; [reflexivity|].
  cbn. rewrite upper_upper_char. f_equal. exact IH.
Qed.

(** Comparing the upper-cased string with an upper-case word is comparing
    without regard to case. *)
Lemma upper_eq_caseless (e x : string) :
  PyStr.upper x = x -> (PyStr.upper e = x <-> same_caseless e x).
Proof.
  intro Hx. unfold same_caseless. split; intro H.
  - rewrite <- H, lower_upper. reflexivity.
  - rewrite <- upper_lower, H, upper_lower. exact Hx.
Qed.

End LetterCase.

(** ** [get_cik] *)

Section GetCik.

Import Cik.

Lemma listed_spec (r : RawRecord) : listed r = true <-> on_allow_list r.
Proof.
  unfold listed, exchange_mask, upper_exchange, on_allow_list, allow_list.
  cbn [raw_exchange]. destruct (raw_exchange r) as [e|]; cbn [option_map].
  - rewrite orb_true_iff, !String.eqb_eq.
    rewrite (upper_eq_caseless e "NASDAQ"), (upper_eq_caseless e "NYSE")
      by reflexivity.
    split.
    + intros [H | H]; exists e; eexists; (split; [reflexivity|]);
        (split; [|exact H]); simpl; auto.
    + intros (e' & x & [= <-] & Hin & Hx). simpl in Hin.
      destruct Hin as [<- | [<- | []]]; auto.
  - split; [discriminate|]. intros (e & x & [=] & _).
Qed.

Lemma comprehension_map {A B C : Type} (f : B -> result C) (g : A -> B)
      (l : list A) :
  comprehension f (map g l) = comprehension (fun a => f (g a)) l.
Proof. induction l as [|a l IH]; simpl; [reflexivity|]. now rewrite IH. Qed.

Lemma comprehension_ext {A B : Type} (f g : A -> result B) (l : list A) :
  (forall a, f a = g a) -> comprehension f l = comprehension g l.
Proof.
  intro H. induction l as [|a l IH]; simpl; [reflexivity|].
  now rewrite H, IH.
Qed.

(** Either every element went through, or one of them raised what the
    comprehension raises. *)
Lemma comprehension_outcome {A B : Type} (f : A -> result B) (l : list A) :
  match comprehension f l with
  | Ok bs => Forall2 (fun a b => f a = Ok b) l bs
  | Raise e => Exists (fun a => f a = Raise e) l
  end.
Proof.
  induction l as [|a l IH]; simpl; [constructor|].
  destruct (f a) as [b | e] eqn:Hfa; simpl.
  - destruct (comprehension f l) as [bs | e]; simpl.
    + constructor; assumption.
    + apply Exists_cons_tl. exact IH.
  - apply Exists_cons_hd. exact Hfa.
Qed.

Lemma filter_map_swap {A B : Type} (p : B -> bool) (g : A -> B)
      (l : list A) :
  filter p (map g l) = map g (filter (fun a => p (g a)) l).
Proof.
  induction l as [|a l IH]; simpl; [reflexivity|].
  destruct (p (g a)); simpl; now rewrite IH.
Qed.

(** Once the frame is made, [get_cik] cleans, in their order, the records
    that pass the mask. *)
Lemma get_cik_unfold (data : list RawRecord) :
  makes_frame data = true ->
  get_cik data = comprehension clean_row (filter listed data).
Proof.
  intro Hf. unfold get_cik, DataFrame. rewrite Hf. cbn [bind].
  rewrite filter_map_swap, comprehension_map.
  apply comprehension_ext. intro r. reflexivity.
Qed.

(** When the frame cannot be made, line 20 raises. *)
Lemma get_cik_no_frame (data : list RawRecord) :
  makes_frame data = false -> get_cik data = Raise ValueError.
Proof. intro Hf. unfold get_cik, DataFrame. now rewrite Hf. Qed.

Lemma clean_row_Ok (r : RawRecord) (o : Row) :
  clean_row r = Ok o -> cleaned r o.
Proof.
  unfold clean_row, regex_sub_cell, cleaned.
  destruct (raw_name r) as [x|]; simpl; [|discriminate].
  intros [= <-]. simpl. repeat split. exists x. split; reflexivity.
Qed.

Lemma clean_row_Raise (r : RawRecord) (e : PyExc) :
  clean_row r = Raise e -> e = TypeError /\ raw_name r = None.
Proof.
  unfold clean_row, regex_sub_cell.
  destruct (raw_name r) as [x|]; simpl; [discriminate|].
  intros [= <-]. split; reflexivity.
Qed.

(** The three outcomes of [get_cik]. *)
Lemma get_cik_outcome (data : list RawRecord) :
  match get_cik data with
  | Ok out =>
      makes_frame data = true /\ Forall2 cleaned (filter listed data) out
  | Raise e =>
      (e = ValueError /\ makes_frame data = false)
      \/ (e = TypeError /\ makes_frame data = true
          /\ Exists nameless data)
  end.
Proof.
  destruct (makes_frame data) eqn:Hf;
    [|rewrite (get_cik_no_frame data Hf); left; now split].
  rewrite (get_cik_unfold data Hf).
  pose proof (comprehension_outcome clean_row (filter listed data)) as H.
  destruct (comprehension clean_row (filter listed data)) as [out | e].
  - split; [reflexivity|].
    eapply Forall2_impl; [|exact H]. intros r o. apply clean_row_Ok.
  - right. apply Exists_exists in H. destruct H as (r & Hin & Hr).
    apply filter_In in Hin. destruct Hin as [Hin Hl].
    apply clean_row_Raise in Hr. destruct Hr as [-> Hname].
    split; [reflexivity|]. split; [reflexivity|].
    apply Exists_exists. exists r. split; [assumption|]. now split.
Qed.

Lemma get_cik_Ok (data : list RawRecord) (out : list Row) :
  get_cik data = Ok out -> Forall2 cleaned (filter listed data) out.
Proof.
  intro H. pose proof (get_cik_outcome data) as Ho. rewrite H in Ho.
  apply Ho.
Qed.

Lemma get_cik_Ok_frame (data : list RawRecord) (out : list Row) :
  get_cik data = Ok out -> makes_frame data = true.
Proof.
  intro H. pose proof (get_cik_outcome data) as Ho. rewrite H in Ho.
  apply Ho.
Qed.

Lemma Forall2_In_l {A B : Type} (R : A -> B -> Prop) (l : list A)
      (l' : list B) (a : A) :
  Forall2 R l l' -> In a l -> exists b, In b l' /\ R a b.
Proof.
  induction 1 as [|x y l l' Hxy _ IH]; intros Hin; [contradiction|].
  destruct Hin as [<- | Hin].
  - exists y. split; [now left | assumption].
  - destruct (IH Hin) as (b & Hb & HR). exists b. split; [now right|assumption].
Qed.

Lemma Forall2_In_r {A B : Type} (R : A -> B -> Prop) (l : list A)
      (l' : list B) (b : B) :
  Forall2 R l l' -> In b l' -> exists a, In a l /\ R a b.
Proof.
  induction 1 as [|x y l l' Hxy _ IH]; intros Hin; [contradiction|].
  destruct Hin as [<- | Hin].
  - exists x. split; [now left | assumption].
  - destruct (IH Hin) as (a & Ha & HR). exists a. split; [now right|assumption].
Qed.

Lemma Forall2_map_eq {A B C : Type} (f : A -> C) (g : B -> C) (l : list A)
      (l' : list B) :
  Forall2 (fun a b => g b = f a) l l' -> map g l' = map f l.
Proof. induction 1; simpl; congruence. Qed.


Lemma get_cik_returns (data : list RawRecord) :
  makes_frame data = true -> all_named data ->
  exists out, get_cik data = Ok out.
Proof.
  intros Hf Hnames. pose proof (get_cik_outcome data) as Ho.
  destruct (get_cik data) as [out | e]; [now exists out|].
  destruct Ho as [[_ Hno] | (_ & _ & Hex)]; [congruence|].
  apply Exists_exists in Hex. destruct Hex as (r & Hin & Hl & Hname).
  exfalso. exact (Hnames r Hin Hl Hname).
Qed.

Lemma get_cik_Ok_named (data : list RawRecord) (out : list Row) :
  get_cik data = Ok out -> all_named data.
Proof.
  intros H r Hin Hl Hname.
  assert (Hin' : In r (filter listed data)) by (apply filter_In; now split).
  destruct (Forall2_In_l _ _ _ _ (get_cik_Ok data out H) Hin')
    as (o & _ & _ & _ & x & Hx & _).
  congruence.
Qed.


Lemma get_cik_rows (data : list RawRecord) (out : list Row) :
  get_cik data = Ok out -> Forall2 from_record (filter listed data) out.
Proof.
  intro H. eapply Forall2_impl; [|exact (get_cik_Ok data out H)].
  intros r o (Hc & Ht & _). now split.
Qed.

End GetCik.

(** ** The claims on [get_cik] and [search_cik] *)

Section CikClaims.

Import Cik.

(** *** C1 *)

(** C1, as stated, fails: the [cik] of a row that [get_cik] returns is the
    bare [str] of the number; Apple's has six characters. *)
Lemma get_cik_cik_unpadded_cex :
  ~ (forall data out o,
        get_cik data = Ok out -> In o out -> String.length (cik o) = 10).
Proof.
  intro H.
  specialize (H [Samples.apple]
                [mkRow "320193" "Apple Inc." (Some "AAPL")]
                (mkRow "320193" "Apple Inc." (Some "AAPL"))
                eq_refl (or_introl eq_refl)).
  discriminate H.
Qed.

(** C1, amended: in the rows of [get_cik] the [cik] is the decimal rendering
    of the source number, without padding; the ten-character form comes from
    [search_cik]: when exactly one row has the upper-cased ticker and the
    numbers are between 0 and 10^10 - 1, it returns ten digits, the rendering
    filled with ['0'] on the left, whose value is the source number. *)
Theorem search_cik_restores_zeros :
  forall data out t o,
    get_cik data = Ok out ->
    (forall r, In r data -> (0 <= raw_cik r < 10 ^ 10)%Z) ->
    filter (ticker_is (PyStr.upper t)) out = [o] ->
    Forall2 (fun r o' => cik o' = PyStr.str_int (raw_cik r))
            (filter listed data) out
    /\ exists r c,
        In r data /\ listed r = true
        /\ raw_ticker r = Some (PyStr.upper t)
        /\ cik o = PyStr.str_int (raw_cik r)
        /\ search_cik out t = Ok c
        /\ c = zero_fill (cik o)
        /\ String.length c = 10
        /\ PyStr.forallb_chars PyStr.isdigit c = true
        /\ PyStr.int_of_digits c = raw_cik r.
Proof.
  intros data out t o Hget Hrange Hone.
  pose proof (get_cik_Ok data out Hget) as Hrows.
  split.
  - eapply Forall2_impl; [|exact Hrows]. intros r o' (Hc & _). exact Hc.
  - assert (Hin : In o (filter (ticker_is (PyStr.upper t)) out))
      by (rewrite Hone; now left).
    apply filter_In in Hin. destruct Hin as [Hin Ht].
    destruct (Forall2_In_r _ _ _ _ Hrows Hin) as (r & Hr & Hc & Htk & _).
    apply filter_In in Hr. destruct Hr as [Hr Hl].
    exists r, (zero_fill (cik o)).
    assert (Hn : (0 <= raw_cik r < 10 ^ 10)%Z) by (apply Hrange; assumption).
    assert (Hren : renders (cik o) (raw_cik r)).
    { rewrite Hc. unfold PyStr.str_int.
      destruct (Z.ltb_spec (raw_cik r) 0) as [Hneg|_]; [lia|].
      apply str_nonneg_renders. lia. }
    destruct (zero_fill_renders (cik o) (raw_cik r) Hren Hn)
      as (Hlen & Hdig & Hval).
    repeat split; try assumption.
    + rewrite <- Htk. unfold ticker_is in Ht.
      destruct (ticker o) as [t'|]; [|discriminate].
      apply String.eqb_eq in Ht. now subst.
    + unfold search_cik. rewrite Hone. reflexivity.
Qed.

Lemma search_cik_restores_zeros_witness :
  get_cik [Samples.over_the_counter; Samples.apple]
  = Ok [mkRow "320193" "Apple Inc." (Some "AAPL")]
  /\ search_cik [mkRow "320193" "Apple Inc." (Some "AAPL")] "aapl"
     = Ok "0000320193"
  /\ exists r c,
      In r [Samples.over_the_counter; Samples.apple] /\ listed r = true
      /\ raw_ticker r = Some (PyStr.upper "aapl")
      /\ cik (mkRow "320193" "Apple Inc." (Some "AAPL"))
         = PyStr.str_int (raw_cik r)
      /\ search_cik [mkRow "320193" "Apple Inc." (Some "AAPL")] "aapl" = Ok c
      /\ c = zero_fill (cik (mkRow "320193" "Apple Inc." (Some "AAPL")))
      /\ String.length c = 10
      /\ PyStr.forallb_chars PyStr.isdigit c = true
      /\ PyStr.int_of_digits c = raw_cik r.
Proof.
  split; [reflexivity|]. split; [reflexivity|].
  refine (proj2 (search_cik_restores_zeros
                   [Samples.over_the_counter; Samples.apple]
                   [mkRow "320193" "Apple Inc." (Some "AAPL")]
                   "aapl" (mkRow "320193" "Apple Inc." (Some "AAPL"))
                   eq_refl _ eq_refl)).
  intros r [<- | [<- | []]]; simpl; lia.
Defined.

(** *** C3 *)

(** C3, as stated, fails: two listed records with one ticker both come out,
    so the later one does not replace the earlier. *)
Lemma get_cik_keeps_duplicates_cex :
  get_cik [Samples.class_a; Samples.class_c]
  = Ok [mkRow "1652044" "Alphabet Inc." (Some "GOOG");
        mkRow "1652044" "Alphabet Inc. Class C" (Some "GOOG")]
  /\ ~ NoDup (map ticker
                  [mkRow "1652044" "Alphabet Inc." (Some "GOOG");
                   mkRow "1652044" "Alphabet Inc. Class C" (Some "GOOG")]).
Proof.
  split; [reflexivity|]. intro H. inversion H as [|x l Hnotin _]; subst.
  apply Hnotin. now left.
Qed.

(** C3, amended: [get_cik] removes no duplicate.  The output has one row for
    every source record on the allow-list, in the order of the source, with
    the ticker of that record; so no two rows share a ticker exactly when no
    two listed source records do. *)
Theorem get_cik_tickers_as_listed :
  forall data out,
    get_cik data = Ok out ->
    map ticker out = map raw_ticker (filter listed data)
    /\ List.length out = List.length (filter listed data)
    /\ (NoDup (map ticker out)
        <-> NoDup (map raw_ticker (filter listed data))).
Proof.
  intros data out Hget.
  pose proof (get_cik_Ok data out Hget) as Hrows.
  assert (Hmap : map ticker out = map raw_ticker (filter listed data)).
  { apply Forall2_map_eq. eapply Forall2_impl; [|exact Hrows].
    intros r o (_ & Ht & _). exact Ht. }
  split; [exact Hmap|]. split.
  - symmetry. eapply Forall2_length. exact Hrows.
  - rewrite Hmap. reflexivity.
Qed.

Lemma get_cik_tickers_as_listed_witness :
  get_cik [Samples.apple; Samples.over_the_counter; Samples.qualcomm]
  = Ok [mkRow "320193" "Apple Inc." (Some "AAPL");
        mkRow "1652044" "Qualcomm Inc" (Some "qcom")]
  /\ NoDup (map ticker [mkRow "320193" "Apple Inc." (Some "AAPL");
                        mkRow "1652044" "Qualcomm Inc" (Some "qcom")]).
Proof.
  split; [reflexivity|].
  apply (proj2 (proj2 (get_cik_tickers_as_listed
                         [Samples.apple; Samples.over_the_counter;
                          Samples.qualcomm]
                         _ eq_refl))).
  simpl. repeat constructor; simpl; intuition discriminate.
Defined.

(** *** C4 *)

(** C4, as stated, fails on the scenario of the specification: the ticker
    "qcom" comes out as it went in. *)
Lemma get_cik_ticker_case_kept_cex :
  get_cik [Samples.qualcomm]
  = Ok [mkRow "1652044" "Qualcomm Inc" (Some "qcom")]
  /\ Some "qcom" <> option_map PyStr.upper (raw_ticker Samples.qualcomm).
Proof. split; [reflexivity | discriminate]. Qed.

(** C4, amended: the ticker of a row is the source ticker as it was
    received; [get_cik] changes no letter of it.  Upper case is applied to
    the ticker that [search_cik] is asked for, and to nothing else. *)
Theorem get_cik_ticker_unchanged :
  forall data out,
    get_cik data = Ok out ->
    Forall2 (fun r o => ticker o = raw_ticker r) (filter listed data) out
    /\ forall t, search_cik out (PyStr.upper t) = search_cik out t.
Proof.
  intros data out Hget. split.
  - eapply Forall2_impl; [|exact (get_cik_Ok data out Hget)].
    intros r o (_ & Ht & _). exact Ht.
  - intro t. unfold search_cik. now rewrite upper_upper.
Qed.

Lemma get_cik_ticker_unchanged_witness :
  get_cik [Samples.qualcomm]
  = Ok [mkRow "1652044" "Qualcomm Inc" (Some "qcom")]
  /\ Forall2 (fun r o => ticker o = raw_ticker r)
             (filter listed [Samples.qualcomm])
             [mkRow "1652044" "Qualcomm Inc" (Some "qcom")].
Proof.
  split; [reflexivity|].
  exact (proj1 (get_cik_ticker_unchanged [Samples.qualcomm] _ eq_refl)).
Defined.

(** *** C5 *)

(** C5, as stated, fails: Apple is on the allow-list, and in this batch it
    does not appear in any output, since the other listed record has no name
    and [get_cik] raises. *)
Lemma get_cik_listed_record_lost_cex :
  listed Samples.apple = true
  /\ get_cik [Samples.apple; Samples.no_name] = Raise TypeError
  /\ ~ exists out, get_cik [Samples.apple; Samples.no_name] = Ok out.
Proof.
  split; [reflexivity|]. split; [reflexivity|].
  intros (out & H). discriminate H.
Qed.

(** C5, amended: [get_cik] returns exactly when the payload makes a
    DataFrame and every record on the allow-list has a name.  When it
    returns, its rows are, one for one and in the order of the source, the
    records whose exchange is, letter case apart, NASDAQ or NYSE, each with
    the number and the ticker of its record, and a row has no exchange; a
    record with the exchange "OTC" is none of them. *)
Theorem get_cik_filters_on_exchange :
  (forall r, listed r = true <-> on_allow_list r)
  /\ (forall data,
         (exists out, get_cik data = Ok out)
         <-> makes_frame data = true /\ all_named data)
  /\ (forall data out,
         get_cik data = Ok out ->
         Forall2 from_record (filter listed data) out)
  /\ (forall r, raw_exchange r = Some "OTC" -> listed r = false).
Proof.
  split; [exact listed_spec|]. split; [|split].
  - intro data. split.
    + intros (out & H). split.
      * exact (get_cik_Ok_frame data out H).
      * exact (get_cik_Ok_named data out H).
    + intros [Hf Hn]. now apply get_cik_returns.
  - exact get_cik_rows.
  - intros r Hotc. unfold listed, exchange_mask, upper_exchange.
    cbn [raw_exchange]. rewrite Hotc. reflexivity.
Qed.

Lemma get_cik_filters_on_exchange_witness :
  get_cik [Samples.apple; Samples.over_the_counter; Samples.qualcomm]
  = Ok [mkRow "320193" "Apple Inc." (Some "AAPL");
        mkRow "1652044" "Qualcomm Inc" (Some "qcom")]
  /\ Forall2 from_record
             (filter listed
                     [Samples.apple; Samples.over_the_counter;
                      Samples.qualcomm])
             [mkRow "320193" "Apple Inc." (Some "AAPL");
              mkRow "1652044" "Qualcomm Inc" (Some "qcom")]
  /\ listed Samples.over_the_counter = false.
Proof.
  split; [reflexivity|]. split.
  - exact (proj1 (proj2 (proj2 get_cik_filters_on_exchange))
                 [Samples.apple; Samples.over_the_counter; Samples.qualcomm]
                 _ eq_refl).
  - exact (proj2 (proj2 (proj2 get_cik_filters_on_exchange))
                 Samples.over_the_counter eq_refl).
Defined.

End CikClaims.

(** ** The name column *)

Section NameClaims.

Import Cik.

(** [split] does not see a whitespace character at the end. *)
Lemma split_from_trailing_space (s word : string) (w : ascii) :
  PyStr.isspace w = true ->
  PyStr.split_from word (s ++ String w "") = PyStr.split_from word s.
Proof.
  intro Hw. revert word. induction s as [|c s IH]; intro word.
  - cbn [append PyStr.split_from]. rewrite Hw. destruct word; reflexivity.
  - cbn [append PyStr.split_from]. destruct (PyStr.isspace c).
    + destruct word; now rewrite IH.
    + apply IH.
Qed.

Lemma capwords_trailing_space (s : string) (w : ascii) :
  PyStr.isspace w = true ->
  PyStr.capwords (s ++ String w "") = PyStr.capwords s.
Proof.
  intro Hw. unfold PyStr.capwords, PyStr.split.
  now rewrite split_from_trailing_space.
Qed.

Lemma remove_tokens_letters_app (l rest : string) :
  PyStr.forallb_chars is_a_z_A_Z l = true ->
  remove_tokens true (l ++ rest) = remove_tokens true rest.
Proof.
  induction l as [|c l IH]; [reflexivity|].
  cbn [PyStr.forallb_chars append remove_tokens]. intro H.
  apply andb_prop in H. destruct H as [Hc Hl].
  rewrite Hc. cbn [andb]. exact (IH Hl).
Qed.

(** Tokens that follow one another are removed whole, wherever the scan
    is. *)
Lemma remove_tokens_tokens (ts : list string) :
  Forall is_token ts ->
  forall in_token, remove_tokens in_token (concat_all ts) = "".
Proof.
  induction 1 as [|t ts (sp & sep & letters & -> & Hsp & Hsep & Hl) _ IH];
    intro b; [reflexivity|].
  cbn [concat_all].
  assert (Hgo : remove_tokens false
                  (String sep (letters ++ concat_all ts)) = "").
  { cbn [remove_tokens andb]. rewrite Hsep.
    rewrite remove_tokens_letters_app by assumption. apply IH. }
  assert (Hgo' : forall b', remove_tokens b'
                   (String sep (letters ++ concat_all ts)) = "").
  { intro b'. cbn [remove_tokens].
    rewrite (separator_not_letter sep Hsep), andb_false_r, Hsep.
    rewrite remove_tokens_letters_app by assumption. apply IH. }
  destruct Hsp as [-> | (w & Hw & ->)].
  - cbn [append]. apply Hgo'.
  - cbn [append remove_tokens starts_with_separator].
    rewrite (isspace_not_letter w Hw), andb_false_r.
    rewrite (isspace_not_separator w Hw), Hw, Hsep. cbn [andb].
    rewrite remove_tokens_letters_app by assumption. apply IH.
Qed.

(** In front of what the scan removes whole, a part without separator is
    kept, up to one whitespace character at its end. *)
Lemma remove_tokens_before (base rest : string) :
  no_separator base ->
  remove_tokens false rest = "" ->
  remove_tokens false (base ++ rest) = base
  \/ exists w, PyStr.isspace w = true
               /\ base
                  = (remove_tokens false (base ++ rest) ++ String w "")%string.
Proof.
  intros Hbase Hrest. induction base as [|c b IH].
  - left. exact Hrest.
  - unfold no_separator in Hbase. cbn [PyStr.forallb_chars] in Hbase.
    apply andb_prop in Hbase. destruct Hbase as [Hc Hb].
    apply negb_true_iff in Hc.
    cbn [append remove_tokens andb]. rewrite Hc.
    destruct (PyStr.isspace c && starts_with_separator (b ++ rest)) eqn:Hws.
    + apply andb_prop in Hws. destruct Hws as [Hsp Hst].
      destruct b as [|d b].
      * right. exists c. split; [assumption|].
        cbn [append]. now rewrite Hrest.
      * exfalso. cbn [append starts_with_separator] in Hst.
        cbn [PyStr.forallb_chars] in Hb. rewrite Hst in Hb. discriminate.
    + destruct (IH Hb) as [-> | (w & Hw & Heq)].
      * now left.
      * right. exists w. split; [assumption|].
        cbn [append]. now rewrite <- Heq.
Qed.

(** A name that ends in tokens is cleaned to its part before them. *)
Lemma clean_name_before_tokens (base : string) (ts : list string) :
  no_separator base -> Forall is_token ts ->
  PyStr.capwords (Re.sub_empty regex (base ++ concat_all ts))
  = PyStr.capwords base.
Proof.
  intros Hbase Hts. rewrite regex_sub_scan.
  destruct (remove_tokens_before base (concat_all ts) Hbase
                                 (remove_tokens_tokens ts Hts false))
    as [-> | (w & Hw & Heq)]; [reflexivity|].
  rewrite Heq at 2. symmetry. now apply capwords_trailing_space.
Qed.

Lemma Forall2_head {A B : Type} (R : A -> B -> Prop) (a : A) (b : B)
      (l : list A) (l' : list B) :
  Forall2 R (a :: l) (b :: l') -> R a b.
Proof. intro H. now inversion H. Qed.

(** *** C6 *)

(** C6, as stated, fails: a token inside the name is removed too, although
    no part at the end of the name matches the pattern. *)
Lemma get_cik_token_inside_cex :
  get_cik [Samples.token_inside]
  = Ok [mkRow "70858" "Bank Of America" (Some "BAC")]
  /\ has_matching_suffix "Bank/De Of America" = false
  /\ PyStr.capwords "Bank/De Of America" = "Bank/de Of America".
Proof. repeat split. Qed.

(** C6, amended: for a record that survives and whose name is a part without
    '\' and '/' followed, up to its end, by tokens (at most one whitespace
    character, then '\' or '/', then letters), or by nothing, the name of the
    row is [capwords] of that part: each of its words capitalised, the words
    joined by single spaces.  The part is to have no character whose upper
    case lies beyond the code points.  Of a name in which something else
    follows a separator, nothing is said. *)
Theorem get_cik_name_tokens_removed :
  forall data out,
    get_cik data = Ok out ->
    Forall2 (fun r o =>
               forall base ts,
                 raw_name r = Some (base ++ concat_all ts)%string ->
                 no_separator base ->
                 Forall is_token ts ->
                 PyStr.upper_defined base = true ->
                 name o = PyStr.capwords base)
            (filter listed data) out.
Proof.
  intros data out Hget.
  eapply Forall2_impl; [|exact (get_cik_Ok data out Hget)].
  intros r o (_ & _ & x & Hx & Hname) base ts Hraw Hbase Hts _.
  rewrite Hx in Hraw. injection Hraw as ->.
  rewrite Hname. now apply clean_name_before_tokens.
Qed.

Lemma get_cik_name_tokens_removed_witness :
  get_cik [Samples.qualcomm]
  = Ok [mkRow "1652044" "Qualcomm Inc" (Some "qcom")]
  /\ (no_separator "Qualcomm Inc" /\ Forall is_token ["\De"])
  /\ name (mkRow "1652044" "Qualcomm Inc" (Some "qcom"))
     = PyStr.capwords "Qualcomm Inc".
Proof.
  assert (Hbase : no_separator "Qualcomm Inc") by reflexivity.
  assert (Htokens : Forall is_token ["\De"]).
  { constructor; [|constructor].
    exists "", "\"%char, "De". repeat split. now left. }
  split; [reflexivity|]. split; [split; assumption|].
  exact (Forall2_head _ _ _ _ _
           (get_cik_name_tokens_removed [Samples.qualcomm] _ eq_refl)
           "Qualcomm Inc" ["\De"] eq_refl Hbase Htokens eq_refl).
Defined.

(** *** C8 *)






Example frame_five_cells :
  get_cik [Samples.apple; Samples.five_cells] = Raise ValueError.
Proof. reflexivity. Qed.

Example frame_short_row_padded :
  get_cik [Samples.three_cells; Samples.apple]
  = Ok [mkRow "320193" "Apple Inc." (Some "AAPL")].
Proof. reflexivity. Qed.

(** A name written with code points beyond 127: "233" is e with acute,
    "201" its upper case. *)
Example capwords_latin :
  PyStr.capwords (String "233" "cole " ++ String "201" "T" ++ String "201" "")
  = (String "201" "cole " ++ String "201" "t" ++ String "233" "")%string.
Proof. reflexivity. Qed.

End NameClaims.

(** ** The differ *)

Section Differ.

Import Stocklist.

Lemma filter_none {A : Type} (p : A -> bool) (l : list A) :
  (forall a, In a l -> p a = false) -> filter p l = [].
Proof.
  induction l as [|a l IH]; intro H; simpl; [reflexivity|].
  rewrite (H a (or_introl eq_refl)). apply IH.
  intros b Hb. apply H. now right.
Qed.

Lemma flat_map_none {A B : Type} (f : A -> list B) (l : list A) :
  (forall a, In a l -> f a = []) -> flat_map f l = [].
Proof.
  induction l as [|a l IH]; intro H; simpl; [reflexivity|].
  rewrite (H a (or_introl eq_refl)). apply IH.
  intros b Hb. apply H. now right.
Qed.

Lemma has_ticker_In (l : list ListingRecord) (r : ListingRecord) :
  In r l -> has_ticker l (ticker r) = true.
Proof.
  intro Hin. unfold has_ticker. apply existsb_exists.
  exists r. split; [assumption | apply String.eqb_refl].
Qed.

(** In a canonical listing the ticker names the record. *)
Lemma canonical_ticker_key (l : list ListingRecord) (a b : ListingRecord) :
  canonical l -> In a l -> In b l -> ticker a = ticker b -> a = b.
Proof.
  unfold canonical. induction l as [|x l IH]; intros Hnd Ha Hb Heq;
    [contradiction|].
  cbn [map] in Hnd. inversion Hnd as [|? ? Hnotin Hnd']; subst.
  destruct Ha as [<- | Ha]; destruct Hb as [<- | Hb].
  - reflexivity.
  - exfalso. apply Hnotin. rewrite Heq. now apply in_map.
  - exfalso. apply Hnotin. rewrite <- Heq. now apply in_map.
  - now apply IH.
Qed.

Lemma differs_self (r : ListingRecord) : differs r r = false.
Proof. unfold differs. rewrite !String.eqb_refl. reflexivity. Qed.

Lemma check_diff_first_run (latest : list ListingRecord) :
  check_diff [] latest = mkChangeset latest [] [].
Proof.
  unfold check_diff. cbn [filter flat_map has_ticker existsb negb].
  f_equal. induction latest as [|r l IH]; simpl; congruence.
Qed.

(** *** C7 *)

(** C7: the changeset of a canonical listing against itself is empty:
    nothing added, nothing removed, nothing changed. *)
Theorem check_diff_same_listing :
  forall X, canonical X -> check_diff X X = empty_changeset.
Proof.
  intros X Hcan. unfold check_diff, empty_changeset.
  assert (Hkeep : filter (fun r => negb (has_ticker X (ticker r))) X = []).
  { apply filter_none. intros r Hr. now rewrite has_ticker_In. }
  rewrite Hkeep. f_equal.
  apply flat_map_none. intros old Hold.
  rewrite (filter_none (differs old) X); [reflexivity|].
  intros new Hnew. destruct (String.eqb_spec (ticker old) (ticker new)) as [Heq | Hne].
  - rewrite (canonical_ticker_key X old new Hcan Hold Hnew Heq).
    apply differs_self.
  - unfold differs. apply String.eqb_neq in Hne. now rewrite Hne.
Qed.

Lemma check_diff_same_listing_witness :
  canonical [ScriptSamples.apple; ScriptSamples.amazon]
  /\ check_diff [ScriptSamples.apple; ScriptSamples.amazon]
                [ScriptSamples.apple; ScriptSamples.amazon]
     = empty_changeset.
Proof.
  assert (Hcan : canonical [ScriptSamples.apple; ScriptSamples.amazon]).
  { unfold canonical. simpl. repeat constructor; simpl; intuition discriminate. }
  split; [exact Hcan|].
  exact (check_diff_same_listing _ Hcan).
Defined.

End Differ.

(** ** The main script *)

Section MainScript.

Import Stocklist Main.

(** C2, as stated, fails: after a first run on an empty table the table is
    still empty; the fetched listing was printed in the changeset and not
    stored. *)
Lemma main_stores_nothing_cex :
  fst (main ScriptSamples.first_run) = Ok tt
  /\ stock_table (snd (main ScriptSamples.first_run)) = []
  /\ stock_table (snd (main ScriptSamples.first_run))
     <> [ScriptSamples.apple; ScriptSamples.amazon].
Proof. repeat split. discriminate. Qed.

(** C2, amended: a run in which the listing is fetched and the database is
    reached ends normally, prints the changeset between the stored table and
    the fetched listing, and leaves the stored table as it was: the script
    writes nothing.  On an empty table the printed changeset has the whole
    fetched listing as [added] and nothing removed or changed. *)
Theorem main_prints_changeset :
  forall w latest,
    fetched w = Ok latest ->
    connected w = Ok tt ->
    fst (main w) = Ok tt
    /\ stdout (snd (main w))
       = stdout w ++ [check_diff (stock_table w) latest]
    /\ stock_table (snd (main w)) = stock_table w
    /\ (stock_table w = [] ->
        stdout (snd (main w)) = stdout w ++ [mkChangeset latest [] []]).
Proof.
  intros w latest Hf Hc. unfold main. rewrite Hf, Hc. cbn.
  repeat split. intros ->. now rewrite check_diff_first_run.
Qed.

Lemma main_prints_changeset_witness :
  (fetched ScriptSamples.first_run
   = Ok [ScriptSamples.apple; ScriptSamples.amazon]
   /\ connected ScriptSamples.first_run = Ok tt)
  /\ stdout (snd (main ScriptSamples.first_run))
     = stdout ScriptSamples.first_run
       ++ [check_diff (stock_table ScriptSamples.first_run)
                      [ScriptSamples.apple; ScriptSamples.amazon]].
Proof.
  split; [split; reflexivity|].
  exact (proj1 (proj2 (main_prints_changeset
                         ScriptSamples.first_run
                         [ScriptSamples.apple; ScriptSamples.amazon]
                         eq_refl eq_refl))).
Defined.

End MainScript.

(** ** [connect_db] *)

Section ConnectDb.

Variables Database Config : Type.
Variable load_config : result Config.
Variable mysql_password : Config -> result string.
Variable Database_new : string -> string -> string -> result Database.

Let connect_db :=
  Connect.connect_db Database Config load_config mysql_password Database_new.

(** C9, amended: an error met while the configuration is read, and one that
    is no [Exception], reaches the caller of [connect_db].  An [Exception]
    raised by the constructor of [Database] does not: [connect_db] prints it
    and returns [None], so the caller gets no error and no connection. *)
Theorem connect_db_failures :
  forall stdout,
    (forall e, load_config = Raise e -> connect_db stdout = (Raise e, stdout))
    /\ (forall config e,
           load_config = Ok config ->
           mysql_password config = Raise e ->
           connect_db stdout = (Raise e, stdout))
    /\ (forall config pw e,
           load_config = Ok config ->
           mysql_password config = Ok pw ->
           Database_new pw "us_stock" "stock_list" = Raise e ->
           connect_db stdout
           = if is_Exception e
             then (Ok None, stdout ++ [exc_str e])
             else (Raise e, stdout))
    /\ (forall config pw db,
           load_config = Ok config ->
           mysql_password config = Ok pw ->
           Database_new pw "us_stock" "stock_list" = Ok db ->
           connect_db stdout = (Ok (Some db), stdout)).
Proof.
  intro stdout. unfold connect_db, Connect.connect_db.
  repeat split.
  - intros e ->. reflexivity.
  - intros config e -> ->. reflexivity.
  - intros config pw e -> -> ->. reflexivity.
  - intros config pw db -> -> ->. reflexivity.
Qed.

End ConnectDb.

(** C9, as stated, fails: when the constructor of [Database] raises, the
    caller of [connect_db] gets [None] as from a normal return, and the
    error is only printed. *)
Lemma connect_db_swallows_cex :
  Connect.connect_db unit unit (Ok tt) (fun _ => Ok "secret")
                     ScriptSamples.access_denied []
  = (Ok None, ["Access denied for user"])
  /\ forall e,
      fst (Connect.connect_db unit unit (Ok tt) (fun _ => Ok "secret")
                              ScriptSamples.access_denied [])
      <> Raise e.
Proof. split; [reflexivity | intros e; discriminate]. Qed.

Lemma connect_db_failures_witness :
  ScriptSamples.access_denied "secret" "us_stock" "stock_list"
  = Raise (OtherException "Access denied for user")
  /\ Connect.connect_db unit unit (Ok tt) (fun _ => Ok "secret")
                        ScriptSamples.access_denied []
     = (Ok None, ["Access denied for user"]).
Proof.
  split; [reflexivity|].
  exact (proj1 (proj2 (proj2
           (connect_db_failures unit unit (Ok tt) (fun _ => Ok "secret")
                                ScriptSamples.access_denied [])))
           tt "secret" (OtherException "Access denied for user")
           eq_refl eq_refl eq_refl).
Defined.

(** ** The market dispatch *)

Section MarketDispatch.

Variables DataFrame Prices datetime UsFin KorFin : Type.
Variable CikList_search_cik : string -> result string.
Variable UsFinancials : string -> string -> string -> string -> result UsFin.
Variable Us_get_standard_financials : UsFin -> result DataFrame.
Variable Us_get_financials : UsFin -> result DataFrame.
Variable Us_open_report : UsFin -> result unit.
Variable KorFinancials : string -> string -> string -> result KorFin.
Variable Kor_get_standard_financials : KorFin -> result DataFrame.
Variable Kor_get_financials : KorFin -> result DataFrame.
Variable Kor_open_report : KorFin -> result unit.
Variable UsMarket : string -> datetime -> datetime -> result Prices.
Variable KorMarket : string -> datetime -> datetime -> result Prices.

Let financial_statement :=
  Market.financial_statement
    DataFrame UsFin KorFin CikList_search_cik UsFinancials
    Us_get_standard_financials Us_get_financials Us_open_report
    KorFinancials Kor_get_standard_financials Kor_get_financials
    Kor_open_report.

Let historical_price :=
  Market.historical_price Prices datetime UsMarket KorMarket.

Let usa_statement :=
  Market.usa_statement
    DataFrame UsFin CikList_search_cik UsFinancials
    Us_get_standard_financials Us_get_financials Us_open_report.

Let kor_statement :=
  Market.kor_statement
    DataFrame KorFin KorFinancials Kor_get_standard_financials
    Kor_get_financials Kor_open_report.

(** C10: for a country code whose upper case is neither 'USA' nor 'KOR',
    [financial_statement] and [historical_price] raise [NotAvailable] and
    return nothing; for a code that is 'USA', or 'KOR', in whatever letter
    case, each of the two methods is the body of that branch, and the
    [else] branch is not reached. *)
Theorem market_dispatch :
  forall country_code symbol financial period web type_of_financial
         start end_,
    (PyStr.upper country_code <> "USA" ->
     PyStr.upper country_code <> "KOR" ->
     financial_statement (Market.init country_code) symbol financial period
                         web type_of_financial
     = Raise NotAvailable
     /\ historical_price (Market.init country_code) symbol start end_
        = Raise NotAvailable)
    /\ (same_caseless country_code "USA" ->
        financial_statement (Market.init country_code) symbol financial
                            period web type_of_financial
        = usa_statement symbol financial period web type_of_financial
        /\ historical_price (Market.init country_code) symbol start end_
           = UsMarket symbol start end_)
    /\ (same_caseless country_code "KOR" ->
        financial_statement (Market.init country_code) symbol financial
                            period web type_of_financial
        = kor_statement symbol financial period web type_of_financial
        /\ historical_price (Market.init country_code) symbol start end_
           = KorMarket symbol start end_).
Proof.
  intros cc symbol financial period web tof start end_.
  unfold financial_statement, historical_price, usa_statement,
    kor_statement, Market.financial_statement, Market.historical_price,
    Market.init.
  cbn [Market.country_code].
  split; [|split].
  - intros Husa Hkor.
    apply String.eqb_neq in Husa. apply String.eqb_neq in Hkor.
    rewrite Husa, Hkor. split; reflexivity.
  - intro H. apply (upper_eq_caseless cc "USA" eq_refl) in H.
    rewrite H. split; reflexivity.
  - intro H. apply (upper_eq_caseless cc "KOR" eq_refl) in H.
    rewrite H. split; reflexivity.
Qed.

End MarketDispatch.

Lemma market_dispatch_witness :
  (PyStr.upper "jpn" <> "USA" /\ PyStr.upper "jpn" <> "KOR")
  /\ Market.financial_statement
       unit unit unit (fun _ => Ok "0000320193") (fun _ _ _ _ => Ok tt)
       (fun _ => Ok tt) (fun _ => Ok tt) (fun _ => Ok tt)
       (fun _ _ _ => Ok tt) (fun _ => Ok tt) (fun _ => Ok tt)
       (fun _ => Ok tt)
       (Market.init "jpn") "7203" "income_statement" "annual" false None
     = Raise NotAvailable
  /\ Market.historical_price
       unit unit (fun _ _ _ => Ok tt) (fun _ _ _ => Ok tt)
       (Market.init "jpn") "7203" tt tt
     = Raise NotAvailable.
Proof.
  assert (Husa : PyStr.upper "jpn" <> "USA") by discriminate.
  assert (Hkor : PyStr.upper "jpn" <> "KOR") by discriminate.
  split; [split; assumption|].
  exact (proj1 (market_dispatch
                  unit unit unit unit unit
                  (fun _ => Ok "0000320193") (fun _ _ _ _ => Ok tt)
                  (fun _ => Ok tt) (fun _ => Ok tt) (fun _ => Ok tt)
                  (fun _ _ _ => Ok tt) (fun _ => Ok tt) (fun _ => Ok tt)
                  (fun _ => Ok tt) (fun _ _ _ => Ok tt) (fun _ _ _ => Ok tt)
                  "jpn" "7203" "income_statement" "annual" false None tt tt)
               Husa Hkor).
Defined.

(** ** Worked examples *)

Example capwords_collapses_spaces :
  PyStr.capwords "  APPLE   inc. " = "Apple Inc.".
Proof. reflexivity. Qed.

Example str_int_negative : PyStr.str_int (-45) = "-45".
Proof. reflexivity. Qed.

Example regex_sub_two_tokens :
  Re.sub_empty Cik.regex "BANK OF AMERICA CORP /DE/" = "BANK OF AMERICA CORP".
Proof. reflexivity. Qed.

Example scenario_qualcomm :
  Cik.get_cik [Samples.qualcomm]
  = Ok [Cik.mkRow "1652044" "Qualcomm Inc" (Some "qcom")].
Proof. reflexivity. Qed.

Example scenario_lookup_usa_lower_case :
  Market.country_code (Market.init "usa") = "USA".
Proof. reflexivity. Qed.

Example search_cik_two_rows :
  Cik.search_cik [Cik.mkRow "1652044" "Alphabet Inc." (Some "GOOG");
                  Cik.mkRow "1652044" "Alphabet Inc. Class C" (Some "GOOG")]
                 "goog"
  = Raise ValueError.
Proof. reflexivity. Qed.

Example search_cik_long_number :
  Cik.search_cik [Cik.mkRow "12345678901" "Long" (Some "LONG")] "LONG"
  = Ok "12345678901".
Proof. reflexivity. Qed.

(** * Further properties *)

(** ** Names as [get_cik] returns them *)

Section CleanNames.

Import Cik.

Ltac by_cases_on c :=
  destruct c as [[] [] [] [] [] [] [] []]; vm_compute; congruence.

Lemma is_separator_upper_char (c : ascii) :
  is_separator (PyStr.upper_char c) = is_separator c.
Proof. by_cases_on c. Qed.

Lemma is_separator_lower_char (c : ascii) :
  is_separator (PyStr.lower_char c) = is_separator c.
Proof. by_cases_on c. Qed.

Lemma isspace_upper_char (c : ascii) :
  PyStr.isspace (PyStr.upper_char c) = PyStr.isspace c.
Proof. by_cases_on c. Qed.

Lemma isspace_lower_char (c : ascii) :
  PyStr.isspace (PyStr.lower_char c) = PyStr.isspace c.
Proof. by_cases_on c. Qed.

Lemma lower_lower_char (c : ascii) :
  PyStr.lower_char (PyStr.lower_char c) = PyStr.lower_char c.
Proof. by_cases_on c. Qed.

Lemma forallb_chars_map (p : ascii -> bool) (f : ascii -> ascii)
      (s : string) :
  (forall c, p (f c) = p c) ->
  PyStr.forallb_chars p (PyStr.map_chars f s) = PyStr.forallb_chars p s.
Proof.
  intro H. induction s as [|c s IH]; [reflexivity|].
  cbn. now rewrite H, IH.
Qed.

Lemma capitalize_forallb (p : ascii -> bool) (w : string) :
  case_blind p ->
  PyStr.forallb_chars p (PyStr.capitalize w) = PyStr.forallb_chars p w.
Proof.
  intros [Hu Hl]. destruct w as [|c w]; [reflexivity|].
  cbn [PyStr.capitalize PyStr.forallb_chars]. rewrite Hu.
  unfold PyStr.lower. now rewrite forallb_chars_map.
Qed.

Lemma split_from_forallb (p : ascii -> bool) (s : string) :
  forall word,
    PyStr.forallb_chars p word = true ->
    PyStr.forallb_chars p s = true ->
    Forall (fun w => PyStr.forallb_chars p w = true)
           (PyStr.split_from word s).
Proof.
  induction s as [|c s IH]; intros word Hw Hs.
  - cbn. destruct word; constructor; [assumption | constructor].
  - cbn [PyStr.forallb_chars] in Hs. apply andb_prop in Hs.
    destruct Hs as [Hc Hs]. cbn [PyStr.split_from].
    destruct (PyStr.isspace c).
    + destruct word.
      * now apply IH.
      * constructor; [assumption | now apply IH].
    + apply IH; [|assumption].
      rewrite forallb_chars_app, Hw. cbn. now rewrite Hc.
Qed.

Lemma join_forallb (p : ascii -> bool) (sep : string) (ws : list string) :
  PyStr.forallb_chars p sep = true ->
  Forall (fun w => PyStr.forallb_chars p w = true) ws ->
  PyStr.forallb_chars p (PyStr.join sep ws) = true.
Proof.
  intros Hsep. induction 1 as [|w ws Hw Hws IH]; [reflexivity|].
  cbn [PyStr.join]. destruct ws as [|w' ws']; [assumption|].
  now rewrite !forallb_chars_app, Hw, Hsep, IH.
Qed.

(** [capwords] brings in no character of a class that the case functions
    do not leave and that has no space in it. *)
Lemma capwords_forallb (p : ascii -> bool) (s : string) :
  case_blind p -> p " "%char = true ->
  PyStr.forallb_chars p s = true ->
  PyStr.forallb_chars p (PyStr.capwords s) = true.
Proof.
  intros Hp Hsp Hs. unfold PyStr.capwords.
  apply join_forallb; [cbn; now rewrite Hsp|].
  apply Forall_map.
  eapply Forall_impl; [|apply (split_from_forallb p s ""); [reflexivity|exact Hs]].
  intros w Hw. now rewrite capitalize_forallb.
Qed.

Lemma remove_tokens_no_separator (s : string) :
  forall in_token, no_separator (remove_tokens in_token s).
Proof.
  unfold no_separator. induction s as [|c s IH]; intro b; [reflexivity|].
  cbn [remove_tokens].
  destruct (b && is_a_z_A_Z c); [apply IH|].
  destruct (is_separator c) eqn:Hsep; [apply IH|].
  destruct (PyStr.isspace c && starts_with_separator s); [apply IH|].
  cbn [PyStr.forallb_chars]. rewrite Hsep. cbn. apply IH.
Qed.

Lemma remove_tokens_nothing (s : string) :
  no_separator s -> remove_tokens false s = s.
Proof.
  unfold no_separator. induction s as [|c s IH]; intro H; [reflexivity|].
  cbn [PyStr.forallb_chars] in H. apply andb_prop in H.
  destruct H as [Hc Hs]. apply negb_true_iff in Hc.
  cbn [remove_tokens andb]. rewrite Hc.
  assert (Hst : starts_with_separator s = false).
  { destruct s as [|d s']; [reflexivity|].
    cbn [PyStr.forallb_chars] in Hs. apply andb_prop in Hs.
    destruct Hs as [Hd _]. now apply negb_true_iff in Hd. }
  rewrite Hst, andb_false_r. now rewrite IH.
Qed.

Lemma clean_name_no_separator (x : string) : no_separator (clean_name x).
Proof.
  unfold clean_name. rewrite regex_sub_scan.
  apply (capwords_forallb (fun c => negb (is_separator c))).
  - split; intro c.
    + now rewrite is_separator_upper_char.
    + now rewrite is_separator_lower_char.
  - reflexivity.
  - apply remove_tokens_no_separator.
Qed.

Lemma split_from_words (s : string) :
  forall word,
    PyStr.forallb_chars (fun c => negb (PyStr.isspace c)) word = true ->
    Forall split_word (PyStr.split_from word s).
Proof.
  induction s as [|c s IH]; intros word Hw.
  - cbn. destruct word; constructor; [|constructor].
    split; [discriminate | assumption].
  - cbn [PyStr.split_from]. destruct (PyStr.isspace c) eqn:Hc.
    + destruct word.
      * now apply IH.
      * constructor; [split; [discriminate | assumption] | now apply IH].
    + apply IH. rewrite forallb_chars_app, Hw. cbn. now rewrite Hc.
Qed.

Lemma capitalize_word (w : string) : split_word w -> split_word (PyStr.capitalize w).
Proof.
  intros [Hne Hns]. split.
  - destruct w; [contradiction | discriminate].
  - rewrite capitalize_forallb; [assumption|].
    split; intro c; [now rewrite isspace_upper_char
                    | now rewrite isspace_lower_char].
Qed.

Lemma capitalize_capitalize (w : string) :
  PyStr.capitalize (PyStr.capitalize w) = PyStr.capitalize w.
Proof.
  destruct w as [|c w]; [reflexivity|].
  cbn [PyStr.capitalize]. rewrite upper_upper_char. f_equal.
  unfold PyStr.lower. induction w as [|d w IH]; [reflexivity|].
  cbn. now rewrite lower_lower_char, IH.
Qed.

(** Reading a run without whitespace moves it to the word being read. *)
Lemma split_from_run (w rest : string) :
  forall word,
    PyStr.forallb_chars (fun c => negb (PyStr.isspace c)) w = true ->
    PyStr.split_from word (w ++ rest)
    = PyStr.split_from (word ++ w) rest.
Proof.
  induction w as [|c w IH]; intros word Hw.
  - cbn. now rewrite string_app_nil_r.
  - cbn [PyStr.forallb_chars] in Hw. apply andb_prop in Hw.
    destruct Hw as [Hc Hw]. apply negb_true_iff in Hc.
    cbn [append PyStr.split_from]. rewrite Hc, IH by assumption.
    now rewrite string_app_assoc.
Qed.

(** [split] undoes [' '.join] on words. *)
Lemma split_join (ws : list string) :
  Forall split_word ws -> PyStr.split (PyStr.join " " ws) = ws.
Proof.
  unfold PyStr.split. induction 1 as [|w ws [Hne Hns] Hws IH];
    [reflexivity|].
  cbn [PyStr.join]. destruct ws as [|w' ws'].
  - rewrite <- (string_app_nil_r w) at 1.
    rewrite split_from_run by assumption. cbn.
    destruct w; [contradiction | reflexivity].
  - rewrite split_from_run by assumption.
    cbn [append PyStr.split_from].
    change (PyStr.isspace " ") with true. cbn iota.
    destruct w as [|c w]; [contradiction|].
    cbn [append]. f_equal. exact IH.
Qed.

Lemma capwords_capwords (s : string) :
  PyStr.capwords (PyStr.capwords s) = PyStr.capwords s.
Proof.
  unfold PyStr.capwords at 1 3.
  assert (Hws : Forall split_word (map PyStr.capitalize (PyStr.split s))).
  { apply Forall_map.
    eapply Forall_impl;
      [|apply (split_from_words s ""); reflexivity].
    intros w. apply capitalize_word. }
  unfold PyStr.capwords. rewrite (split_join _ Hws), map_map.
  f_equal. apply map_ext. intro w. apply capitalize_capitalize.
Qed.

(** X1: a name that [get_cik] returns has neither '/' nor '\' in it,
    whatever the source name was. *)
Theorem get_cik_names_without_separator :
  forall data out,
    get_cik data = Ok out ->
    Forall (fun o => no_separator (name o)) out.
Proof.
  intros data out Hget. apply Forall_forall. intros o Ho.
  destruct (Forall2_In_r _ _ _ _ (get_cik_Ok data out Hget) Ho)
    as (r & _ & _ & _ & x & _ & ->).
  apply (clean_name_no_separator x).
Qed.

Lemma get_cik_names_without_separator_witness :
  get_cik [Samples.token_inside; Samples.qualcomm]
  = Ok [mkRow "70858" "Bank Of America" (Some "BAC");
        mkRow "1652044" "Qualcomm Inc" (Some "qcom")]
  /\ Forall (fun o => no_separator (name o))
            [mkRow "70858" "Bank Of America" (Some "BAC");
             mkRow "1652044" "Qualcomm Inc" (Some "qcom")].
Proof.
  split; [reflexivity|].
  exact (get_cik_names_without_separator
           [Samples.token_inside; Samples.qualcomm] _ eq_refl).
Defined.

(** X2: cleaning a name is idempotent: a name that went through lines 33-38
    comes out of them unchanged, so every name that [get_cik] returns is a
    fixed point of the cleaning. *)
Theorem get_cik_names_stay_clean :
  (forall x, clean_name (clean_name x) = clean_name x)
  /\ (forall data out,
         get_cik data = Ok out ->
         Forall (fun o => clean_name (name o) = name o) out).
Proof.
  assert (Hidem : forall x, clean_name (clean_name x) = clean_name x).
  { intro x. unfold clean_name at 1. rewrite regex_sub_scan.
    rewrite (remove_tokens_nothing _ (clean_name_no_separator x)).
    unfold clean_name. apply capwords_capwords. }
  split; [exact Hidem|].
  intros data out Hget. apply Forall_forall. intros o Ho.
  destruct (Forall2_In_r _ _ _ _ (get_cik_Ok data out Hget) Ho)
    as (r & _ & _ & _ & x & _ & ->).
  apply (Hidem x).
Qed.

Lemma get_cik_names_stay_clean_witness :
  get_cik [Samples.qualcomm]
  = Ok [mkRow "1652044" "Qualcomm Inc" (Some "qcom")]
  /\ Forall (fun o => clean_name (name o) = name o)
            [mkRow "1652044" "Qualcomm Inc" (Some "qcom")].
Proof.
  split; [reflexivity|].
  exact (proj2 get_cik_names_stay_clean [Samples.qualcomm] _ eq_refl).
Defined.

End CleanNames.

(** ** Batches and lookups *)

Section Lookups.

Import Cik.

Lemma comprehension_app {A B : Type} (f : A -> result B) (l1 l2 : list A) :
  comprehension f (l1 ++ l2)
  = join_results (comprehension f l1) (comprehension f l2).
Proof.
  unfold join_results. induction l1 as [|a l1 IH]; cbn.
  - destruct (comprehension f l2); reflexivity.
  - destruct (f a) as [b|e]; cbn; [|reflexivity].
    rewrite IH. destruct (comprehension f l1) as [bs|e]; cbn; [|reflexivity].
    destruct (comprehension f l2); reflexivity.
Qed.

Lemma widest_app (l1 l2 : list RawRecord) :
  widest (l1 ++ l2) = Nat.max (widest l1) (widest l2).
Proof.
  induction l1 as [|a l1 IH]; [reflexivity|].
  cbn [app widest fold_right]. fold (widest (l1 ++ l2)). fold (widest l1).
  rewrite IH. lia.
Qed.

Lemma makes_frame_app (l1 l2 : list RawRecord) :
  makes_frame l1 = true -> makes_frame l2 = true ->
  makes_frame (l1 ++ l2) = true.
Proof.
  intros H1 H2. destruct l1 as [|a l1]; [exact H2|].
  destruct l2 as [|b l2]; [now rewrite app_nil_r|].
  unfold makes_frame in *. cbn [app].
  change (a :: l1 ++ b :: l2) with ((a :: l1) ++ b :: l2).
  apply Nat.eqb_eq in H1. apply Nat.eqb_eq in H2. apply Nat.eqb_eq.
  rewrite widest_app. lia.
Qed.

(** X3: two batches that each make a DataFrame are cleaned together as they
    are apart: the rows of the first come before the rows of the second, and
    when one of the two raises, the two together raise. *)
Theorem get_cik_app :
  forall l1 l2,
    makes_frame l1 = true -> makes_frame l2 = true ->
    get_cik (l1 ++ l2) = join_results (get_cik l1) (get_cik l2).
Proof.
  intros l1 l2 H1 H2.
  rewrite (get_cik_unfold _ (makes_frame_app l1 l2 H1 H2)).
  rewrite (get_cik_unfold l1 H1), (get_cik_unfold l2 H2), filter_app.
  apply comprehension_app.
Qed.

Lemma get_cik_app_witness :
  (makes_frame [Samples.apple; Samples.three_cells] = true
   /\ makes_frame [Samples.qualcomm] = true)
  /\ get_cik ([Samples.apple; Samples.three_cells] ++ [Samples.qualcomm])
     = join_results (get_cik [Samples.apple; Samples.three_cells])
                    (get_cik [Samples.qualcomm]).
Proof.
  split; [split; reflexivity|].
  exact (get_cik_app [Samples.apple; Samples.three_cells]
                     [Samples.qualcomm] eq_refl eq_refl).
Defined.

Lemma Forall2_impl_In {A B : Type} (R Q : A -> B -> Prop) (l : list A)
      (l' : list B) :
  Forall2 R l l' ->
  (forall a b, In a l -> R a b -> Q a b) ->
  Forall2 Q l l'.
Proof.
  induction 1 as [|a b l l' Hab _ IH]; intro H; constructor.
  - apply H; [now left | assumption].
  - apply IH. intros x y Hx. apply H. now right.
Qed.

(** X4: the [cik] column can be read back: for source numbers that are not
    negative, the [cik] of every row is made of digits only, and its value
    as a decimal number is the source number. *)
Theorem get_cik_cik_reads_back :
  forall data out,
    get_cik data = Ok out ->
    (forall r, In r data -> (0 <= raw_cik r)%Z) ->
    Forall2 (fun r o =>
               PyStr.forallb_chars PyStr.isdigit (cik o) = true
               /\ PyStr.int_of_digits (cik o) = raw_cik r)
            (filter listed data) out.
Proof.
  intros data out Hget Hpos.
  apply (Forall2_impl_In _ _ _ _ (get_cik_Ok data out Hget)).
  intros r o Hr (Hc & _). apply filter_In in Hr. destruct Hr as [Hr _].
  specialize (Hpos r Hr). rewrite Hc. unfold PyStr.str_int.
  destruct (Z.ltb_spec (raw_cik r) 0) as [Hneg|_]; [lia|].
  destruct (str_nonneg_renders (raw_cik r) Hpos) as (Hdig & Hval & _).
  split; [assumption|]. unfold PyStr.int_of_digits. rewrite Hval. lia.
Qed.

Lemma get_cik_cik_reads_back_witness :
  get_cik [Samples.apple; Samples.qualcomm]
  = Ok [mkRow "320193" "Apple Inc." (Some "AAPL");
        mkRow "1652044" "Qualcomm Inc" (Some "qcom")]
  /\ Forall2 (fun r o =>
                PyStr.forallb_chars PyStr.isdigit (cik o) = true
                /\ PyStr.int_of_digits (cik o) = raw_cik r)
             (filter listed [Samples.apple; Samples.qualcomm])
             [mkRow "320193" "Apple Inc." (Some "AAPL");
              mkRow "1652044" "Qualcomm Inc" (Some "qcom")].
Proof.
  split; [reflexivity|].
  refine (get_cik_cik_reads_back
            [Samples.apple; Samples.qualcomm] _ eq_refl _).
  intros r [<- | [<- | []]]; cbn; lia.
Defined.

Lemma caseless_upper (t t' : string) :
  same_caseless t t' -> PyStr.upper t = PyStr.upper t'.
Proof.
  unfold same_caseless. intro H.
  now rewrite <- (upper_lower t), H, upper_lower.
Qed.

(** X5: [search_cik] does not look at the letter case of the ticker it is
    asked for. *)
Theorem search_cik_caseless :
  forall cik_list t t',
    same_caseless t t' -> search_cik cik_list t = search_cik cik_list t'.
Proof.
  intros l t t' H. unfold search_cik. now rewrite (caseless_upper t t' H).
Qed.

Lemma search_cik_caseless_witness :
  same_caseless "aApL" "AAPL"
  /\ search_cik [mkRow "320193" "Apple Inc." (Some "AAPL")] "aApL"
     = search_cik [mkRow "320193" "Apple Inc." (Some "AAPL")] "AAPL".
Proof.
  assert (H : same_caseless "aApL" "AAPL") by reflexivity.
  split; [exact H|].
  exact (search_cik_caseless _ "aApL" "AAPL" H).
Defined.

Lemma filter_filter_implied {A : Type} (p q : A -> bool) (l : list A) :
  (forall a, p a = true -> q a = true) ->
  filter p (filter q l) = filter p l.
Proof.
  intro H. induction l as [|a l IH]; [reflexivity|].
  cbn. destruct (q a) eqn:Hq; cbn.
  - now rewrite IH.
  - destruct (p a) eqn:Hp; [|exact IH].
    rewrite (H a Hp) in Hq. discriminate.
Qed.

Lemma ticker_is_Some (u : string) (o : Row) :
  ticker_is u o = true <-> ticker o = Some u.
Proof.
  unfold ticker_is. destruct (ticker o) as [t|].
  - rewrite String.eqb_eq. split; [now intros -> | now intros [= ->]].
  - split; discriminate.
Qed.

(** X6: a row whose stored ticker is not in upper case is never found:
    [search_cik] answers as if the list had only the rows with an upper-case
    ticker. *)
Theorem search_cik_sees_upper_tickers_only :
  forall cik_list t,
    search_cik cik_list t = search_cik (filter upper_ticker cik_list) t.
Proof.
  intros l t. unfold search_cik.
  rewrite filter_filter_implied; [reflexivity|].
  intros o Ho. apply ticker_is_Some in Ho.
  unfold upper_ticker. rewrite Ho, upper_upper. apply String.eqb_refl.
Qed.

Lemma filter_through_map {A B : Type} (f : A -> B) (g : B -> bool)
      (l : list A) :
  map f (filter (fun a => g (f a)) l) = filter g (map f l).
Proof.
  induction l as [|a l IH]; [reflexivity|].
  cbn. destruct (g (f a)); cbn; now rewrite IH.
Qed.

(** The rows that [search_cik] is left with are as many as the listed
    source records with the ticker. *)
Lemma search_cik_candidates (data : list RawRecord) (out : list Row)
      (u : string) :
  get_cik data = Ok out ->
  List.length (filter (ticker_is u) out)
  = List.length (filter (fun r => is_ticker u (raw_ticker r))
                        (filter listed data)).
Proof.
  intro Hget.
  assert (Hmap : map ticker out = map raw_ticker (filter listed data)).
  { apply Forall2_map_eq. eapply Forall2_impl; [|exact (get_cik_Ok _ _ Hget)].
    intros r o (_ & Ht & _). exact Ht. }
  change (ticker_is u) with (fun o => is_ticker u (ticker o)).
  rewrite <- (length_map ticker), <- (length_map raw_ticker).
  rewrite !filter_through_map. now rewrite Hmap.
Qed.

(** X7: a ticker that no listed source record has is looked up in vain:
    [search_cik] on the rows of [get_cik] raises [ValueError]. *)
Theorem search_cik_unknown_ticker :
  forall data out t,
    get_cik data = Ok out ->
    (forall r, In r data -> listed r = true ->
               raw_ticker r <> Some (PyStr.upper t)) ->
    search_cik out t = Raise ValueError.
Proof.
  intros data out t Hget Hnone.
  pose proof (search_cik_candidates data out (PyStr.upper t) Hget) as Hlen.
  rewrite (filter_none _ (filter listed data)) in Hlen.
  - unfold search_cik.
    destruct (filter (ticker_is (PyStr.upper t)) out); [reflexivity|].
    discriminate Hlen.
  - intros r Hr. apply filter_In in Hr. destruct Hr as [Hr Hl].
    specialize (Hnone r Hr Hl). unfold is_ticker.
    destruct (raw_ticker r) as [t'|]; [|reflexivity].
    apply String.eqb_neq. congruence.
Qed.

Lemma search_cik_unknown_ticker_witness :
  get_cik [Samples.apple; Samples.over_the_counter]
  = Ok [mkRow "320193" "Apple Inc." (Some "AAPL")]
  /\ search_cik [mkRow "320193" "Apple Inc." (Some "AAPL")] "acmh"
     = Raise ValueError.
Proof.
  split; [reflexivity|].
  refine (search_cik_unknown_ticker
            [Samples.apple; Samples.over_the_counter] _ "acmh" eq_refl _).
  intros r [<- | [<- | []]] Hl; cbn in *; discriminate.
Defined.

Lemma filter_two {A : Type} (p : A -> bool) (l1 : list A) (a : A)
      (l2 : list A) (b : A) (l3 : list A) :
  p a = true -> p b = true ->
  2 <= List.length (filter p (l1 ++ a :: l2 ++ b :: l3)).
Proof.
  intros Ha Hb. rewrite filter_app. cbn [filter]. rewrite Ha, filter_app.
  cbn [filter]. rewrite Hb.
  rewrite length_app. cbn [List.length]. rewrite length_app.
  cbn [List.length]. lia.
Qed.

(** X8: a ticker that two listed source records have cannot be looked up
    either: [get_cik] keeps both rows, and [search_cik] raises
    [ValueError]. *)
Theorem search_cik_duplicate_ticker :
  forall l1 r1 l2 r2 l3 out t,
    get_cik (l1 ++ r1 :: l2 ++ r2 :: l3) = Ok out ->
    listed r1 = true -> listed r2 = true ->
    raw_ticker r1 = Some (PyStr.upper t) ->
    raw_ticker r2 = Some (PyStr.upper t) ->
    search_cik out t = Raise ValueError.
Proof.
  intros l1 r1 l2 r2 l3 out t Hget Hl1 Hl2 Ht1 Ht2.
  pose proof (search_cik_candidates _ out (PyStr.upper t) Hget) as Hlen.
  assert (Hshape :
            filter listed (l1 ++ r1 :: l2 ++ r2 :: l3)
            = filter listed l1 ++ r1 :: filter listed l2
                ++ r2 :: filter listed l3).
  { rewrite filter_app. cbn [filter]. rewrite Hl1, filter_app.
    cbn [filter]. now rewrite Hl2. }
  rewrite Hshape in Hlen.
  pose proof (filter_two (fun r => is_ticker (PyStr.upper t) (raw_ticker r))
                         (filter listed l1) r1 (filter listed l2) r2
                         (filter listed l3)) as Htwo.
  cbv beta in Htwo. rewrite Ht1, Ht2 in Htwo. cbn [is_ticker] in Htwo.
  rewrite String.eqb_refl in Htwo. specialize (Htwo eq_refl eq_refl).
  unfold search_cik.
  destruct (filter (ticker_is (PyStr.upper t)) out) as [|o1 [|o2 rest]];
    [reflexivity | cbn in Hlen; lia | reflexivity].
Qed.

Lemma search_cik_duplicate_ticker_witness :
  get_cik ([] ++ Samples.class_a :: [Samples.apple] ++ Samples.class_c :: [])
  = Ok [mkRow "1652044" "Alphabet Inc." (Some "GOOG");
        mkRow "320193" "Apple Inc." (Some "AAPL");
        mkRow "1652044" "Alphabet Inc. Class C" (Some "GOOG")]
  /\ search_cik [mkRow "1652044" "Alphabet Inc." (Some "GOOG");
                 mkRow "320193" "Apple Inc." (Some "AAPL");
                 mkRow "1652044" "Alphabet Inc. Class C" (Some "GOOG")]
                "goog"
     = Raise ValueError.
Proof.
  split; [reflexivity|].
  exact (search_cik_duplicate_ticker
           [] Samples.class_a [Samples.apple] Samples.class_c [] _ "goog"
           eq_refl eq_refl eq_refl eq_refl eq_refl).
Defined.

Lemma repeat_char_all (c : ascii) (n : Z) :
  PyStr.forallb_chars (Ascii.eqb c) (PyStr.repeat_char c n) = true.
Proof.
  unfold PyStr.repeat_char.
  induction (Z.to_nat n) as [|k IH]; cbn; [reflexivity|].
  now rewrite Ascii.eqb_refl, IH.
Qed.

(** X9: what [search_cik] returns is the stored [cik] of a row with the
    upper-cased ticker, with zeros and nothing else in front of it; it has
    ten characters, or as many as the stored [cik] when that has more: the
    stored [cik] is never cut. *)
Theorem search_cik_never_cuts :
  forall cik_list t c,
    search_cik cik_list t = Ok c ->
    exists o zeros,
      In o cik_list
      /\ ticker o = Some (PyStr.upper t)
      /\ c = (zeros ++ cik o)%string
      /\ PyStr.forallb_chars (Ascii.eqb "0") zeros = true
      /\ String.length c = Nat.max 10 (String.length (cik o)).
Proof.
  intros l t c H. unfold search_cik in H.
  destruct (filter (ticker_is (PyStr.upper t)) l) as [|o [|o' rest]] eqn:Hf;
    try discriminate.
  injection H as <-.
  assert (Hin : In o (filter (ticker_is (PyStr.upper t)) l))
    by (rewrite Hf; now left).
  apply filter_In in Hin. destruct Hin as [Hin Ht].
  apply ticker_is_Some in Ht.
  exists o, (PyStr.repeat_char "0" (10 - Z.of_nat (String.length (cik o)))).
  repeat split; try assumption.
  - apply repeat_char_all.
  - unfold zero_fill. rewrite string_length_app, repeat_char_length. lia.
Qed.

Lemma search_cik_never_cuts_witness :
  search_cik [mkRow "12345678901" "Long" (Some "LONG")] "long"
  = Ok "12345678901"
  /\ exists o zeros,
      In o [mkRow "12345678901" "Long" (Some "LONG")]
      /\ ticker o = Some (PyStr.upper "long")
      /\ "12345678901" = (zeros ++ cik o)%string
      /\ PyStr.forallb_chars (Ascii.eqb "0") zeros = true
      /\ String.length "12345678901" = Nat.max 10 (String.length (cik o)).
Proof.
  split; [reflexivity|].
  exact (search_cik_never_cuts
           [mkRow "12345678901" "Long" (Some "LONG")] "long" _ eq_refl).
Defined.

End Lookups.

(** ** The country code of a [Stock] *)

Section CountryCode.

Import Stock.

Ltac by_cases_on c :=
  destruct c as [[] [] [] [] [] [] [] []]; vm_compute; congruence.

Lemma letter_is_word (c : ascii) :
  Cik.is_a_z_A_Z c = true -> is_word c = true.
Proof. by_cases_on c. Qed.

Lemma letter_upper_isupper (c : ascii) :
  Cik.is_a_z_A_Z c = true -> PyStr.isupper (PyStr.upper_char c) = true.
Proof. by_cases_on c. Qed.

Lemma upper_length (s : string) :
  String.length (PyStr.upper s) = String.length s.
Proof.
  unfold PyStr.upper. induction s as [|c s IH]; cbn; congruence.
Qed.

Lemma upper_letters_isupper (s : string) :
  PyStr.forallb_chars Cik.is_a_z_A_Z s = true ->
  PyStr.forallb_chars PyStr.isupper (PyStr.upper s) = true.
Proof.
  induction s as [|c s IH]; [reflexivity|].
  cbn [PyStr.forallb_chars]. intro H. apply andb_prop in H.
  destruct H as [Hc Hs].
  change (PyStr.upper (String c s))
    with (String (PyStr.upper_char c) (PyStr.upper s)).
  cbn [PyStr.forallb_chars].
  now rewrite (letter_upper_isupper c Hc), IH.
Qed.

(** The match of the pattern at one position, written out. *)
Lemma match_at_alpha3 (prev : option ascii) (s : string) :
  match_at prev alpha3 s
  = if at_boundary prev s then
      match s with
      | String c1 (String c2 (String c3 post)) =>
          if Cik.is_a_z_A_Z c1 && Cik.is_a_z_A_Z c2 && Cik.is_a_z_A_Z c3
          then if at_boundary (Some c3) post
               then Some (String c1 (String c2 (String c3 "")))
               else None
          else None
      | _ => None
      end
    else None.
Proof.
  unfold alpha3. cbn [match_at].
  destruct (at_boundary prev s); [|reflexivity].
  destruct s as [|c1 [|c2 [|c3 post]]]; cbn.
  - reflexivity.
  - destruct (Cik.is_a_z_A_Z c1); reflexivity.
  - destruct (Cik.is_a_z_A_Z c1), (Cik.is_a_z_A_Z c2); reflexivity.
  - destruct (Cik.is_a_z_A_Z c1), (Cik.is_a_z_A_Z c2),
      (Cik.is_a_z_A_Z c3); cbn; try reflexivity.
    destruct (at_boundary (Some c3) post); reflexivity.
Qed.

Lemma match_at_alpha3_Some (prev : option ascii) (s m : string) :
  match_at prev alpha3 s = Some m <->
  is_word_opt prev = false
  /\ exists post,
      s = (m ++ post)%string
      /\ String.length m = 3
      /\ PyStr.forallb_chars Cik.is_a_z_A_Z m = true
      /\ is_word_opt (head post) = false.
Proof.
  rewrite match_at_alpha3. split.
  - destruct (at_boundary prev s) eqn:Hb; [|discriminate].
    destruct s as [|c1 [|c2 [|c3 post]]]; try discriminate.
    destruct (Cik.is_a_z_A_Z c1) eqn:H1; [|discriminate].
    destruct (Cik.is_a_z_A_Z c2) eqn:H2; [|discriminate].
    destruct (Cik.is_a_z_A_Z c3) eqn:H3; [|discriminate].
    cbn [andb].
    destruct (at_boundary (Some c3) post) eqn:Hb'; [|discriminate].
    intros [= <-].
    unfold at_boundary in Hb, Hb'. cbn [head is_word_opt] in Hb, Hb'.
    rewrite (letter_is_word c1 H1) in Hb.
    rewrite (letter_is_word c3 H3) in Hb'.
    split; [now destruct (is_word_opt prev)|].
    exists post. repeat split.
    + cbn. now rewrite H1, H2, H3.
    + now destruct (is_word_opt (head post)).
  - intros (Hprev & post & -> & Hlen & Hl & Hpost).
    destruct m as [|c1 [|c2 [|c3 [|c4 m]]]]; try discriminate Hlen.
    cbn in Hl. apply andb_prop in Hl. destruct Hl as [H1 Hl].
    apply andb_prop in Hl. destruct Hl as [H2 Hl].
    apply andb_prop in Hl. destruct Hl as [H3 _].
    cbn [append]. unfold at_boundary. cbn [head is_word_opt].
    rewrite Hprev, Hpost, (letter_is_word c1 H1), (letter_is_word c3 H3).
    cbn. now rewrite H1, H2, H3.
Qed.

Lemma search_from_unfold (prev : option ascii) (atoms : list atom)
      (s : string) :
  search_from prev atoms s
  = match match_at prev atoms s with
    | Some m => Some m
    | None =>
        match s with
        | String c s' => search_from (Some c) atoms s'
        | EmptyString => None
        end
    end.
Proof. destruct s; reflexivity. Qed.

Lemma last_char_cons (s : string) :
  forall c, exists d, last_char (String c s) = Some d.
Proof.
  induction s as [|a s IH]; intro c; [now exists c|].
  destruct (IH a) as (d & Hd). exists d. exact Hd.
Qed.

Lemma last_after_cons (prev : option ascii) (c : ascii) (pre : string) :
  last_after prev (String c pre) = last_after (Some c) pre.
Proof.
  unfold last_after. destruct pre as [|a pre]; [reflexivity|].
  destruct (last_char_cons pre a) as (d & Hd).
  change (last_char (String c (String a pre)))
    with (last_char (String a pre)).
  now rewrite Hd.
Qed.

(** What the search finds is a word of three letters. *)
Lemma search_alpha3_sound (s : string) :
  forall prev m,
    search_from prev alpha3 s = Some m ->
    exists pre post,
      s = (pre ++ m ++ post)%string
      /\ String.length m = 3
      /\ PyStr.forallb_chars Cik.is_a_z_A_Z m = true
      /\ is_word_opt (last_after prev pre) = false
      /\ is_word_opt (head post) = false.
Proof.
  induction s as [|c s IH]; intros prev m H;
    rewrite search_from_unfold in H;
    destruct (match_at prev alpha3 _) as [m'|] eqn:Hm.
  - injection H as ->. apply match_at_alpha3_Some in Hm.
    destruct Hm as (Hprev & post & Hs & Hlen & Hl & Hpost).
    exists "", post. repeat split; assumption.
  - discriminate.
  - injection H as ->. apply match_at_alpha3_Some in Hm.
    destruct Hm as (Hprev & post & Hs & Hlen & Hl & Hpost).
    exists "", post. repeat split; assumption.
  - destruct (IH _ _ H) as (pre & post & -> & Hlen & Hl & Hpre & Hpost).
    exists (String c pre), post. repeat split; try assumption.
    now rewrite last_after_cons.
Qed.

(** Where there is a word of three letters, the search finds one. *)
Lemma search_alpha3_complete (pre m post : string) :
  forall prev,
    String.length m = 3 ->
    PyStr.forallb_chars Cik.is_a_z_A_Z m = true ->
    is_word_opt (last_after prev pre) = false ->
    is_word_opt (head post) = false ->
    exists m', search_from prev alpha3 (pre ++ m ++ post) = Some m'.
Proof.
  induction pre as [|c pre IH]; intros prev Hlen Hl Hpre Hpost;
    rewrite search_from_unfold.
  - cbn [append].
    assert (Hm : match_at prev alpha3 (m ++ post) = Some m).
    { apply match_at_alpha3_Some. split; [exact Hpre|].
      exists post. repeat split; assumption. }
    rewrite Hm. now exists m.
  - destruct (match_at prev alpha3 _) as [m'|]; [now exists m'|].
    cbn [append]. apply IH; try assumption.
    now rewrite <- (last_after_cons prev c pre).
Qed.

Lemma validate_country_code_cases :
  validate_country_code None
  = Raises (CountryCodeValidationFailed alpha3_message)
  /\ forall s,
      match validate_country_code (Some s) with
      | Returns code =>
          exists pre m post,
            s = (pre ++ m ++ post)%string
            /\ alpha3_word pre m post
            /\ code = PyStr.upper m
      | Raises e =>
          e = CountryCodeValidationFailed alpha3_message
          /\ ~ exists pre m post,
                s = (pre ++ m ++ post)%string /\ alpha3_word pre m post
      end.
Proof.
  split; [reflexivity|]. intro s.
  unfold validate_country_code, search_and_upper, re_search.
  destruct (search_from None alpha3 s) as [m|] eqn:Hs.
  - destruct (search_alpha3_sound s None m Hs)
      as (pre & post & -> & Hlen & Hl & Hpre & Hpost).
    exists pre, m, post. split; [reflexivity|]. split; [|reflexivity].
    repeat split; try assumption.
    unfold last_after in Hpre. now destruct (last_char pre).
  - split; [reflexivity|].
    intros (pre & m & post & -> & Hlen & Hl & Hpre & Hpost).
    destruct (search_alpha3_complete pre m post None Hlen Hl) as (m' & Hm');
      [|assumption|congruence].
    unfold last_after. destruct (last_char pre); [assumption | reflexivity].
Qed.


(** X11: a [Stock] that was built has the symbol it was given and a country
    code of exactly three upper-case letters, which [upper] leaves as it
    is. *)
Theorem init_country_code_alpha3 :
  forall sym cc st,
    init sym cc = Returns st ->
    symbol st = sym
    /\ String.length (country_code st) = 3
    /\ PyStr.forallb_chars PyStr.isupper (country_code st) = true
    /\ PyStr.upper (country_code st) = country_code st.
Proof.
  intros sym cc st H. unfold init in H.
  destruct cc as [s|];
    [|destruct validate_country_code_cases as [Hn _];
      rewrite Hn in H; discriminate].
  pose proof (proj2 validate_country_code_cases s) as Hv.
  destruct (validate_country_code (Some s)) as [code|e]; [|discriminate].
  cbn in H. injection H as <-. cbn [symbol country_code].
  destruct Hv as (pre & m & post & _ & (Hlen & Hl & _) & ->).
  repeat split.
  - now rewrite upper_length.
  - now apply upper_letters_isupper.
  - apply upper_upper.
Qed.

Lemma init_country_code_alpha3_witness :
  init "005930" (Some "(kor)") = Returns (mkStock "005930" "KOR")
  /\ String.length (country_code (mkStock "005930" "KOR")) = 3.
Proof.
  split; [reflexivity|].
  exact (proj1 (proj2 (init_country_code_alpha3
                         "005930" (Some "(kor)") _ eq_refl))).
Defined.

(** X12: a string of exactly three letters is accepted and returned in
    upper case; a string of fewer than three characters is refused. *)
Theorem validate_country_code_by_length :
  (forall s,
      String.length s = 3 ->
      PyStr.forallb_chars Cik.is_a_z_A_Z s = true ->
      validate_country_code (Some s) = Returns (PyStr.upper s))
  /\ (forall s,
         String.length s < 3 ->
         validate_country_code (Some s)
         = Raises (CountryCodeValidationFailed alpha3_message)).
Proof.
  split.
  - intros s Hlen Hl.
    unfold validate_country_code, search_and_upper, re_search.
    rewrite search_from_unfold.
    assert (Hm : match_at None alpha3 s = Some s).
    { apply match_at_alpha3_Some. split; [reflexivity|].
      exists "". rewrite string_app_nil_r. repeat split; assumption. }
    now rewrite Hm.
  - intros s Hlen.
    pose proof (proj2 validate_country_code_cases s) as Hv.
    destruct (validate_country_code (Some s)) as [code|e].
    + exfalso. destruct Hv as (pre & m & post & -> & (Hm & _) & _).
      rewrite !string_length_app in Hlen. lia.
    + destruct Hv as [-> _]. reflexivity.
Qed.

Lemma validate_country_code_by_length_witness :
  (String.length "kor" = 3
   /\ PyStr.forallb_chars Cik.is_a_z_A_Z "kor" = true)
  /\ validate_country_code (Some "kor") = Returns (PyStr.upper "kor").
Proof.
  split; [split; reflexivity|].
  exact (proj1 validate_country_code_by_length "kor" eq_refl eq_refl).
Defined.

End CountryCode.

(** ** The lookup of [StockList] *)

Section StockLookup.

Import Stock.

Lemma ticker_is_of_cik_row (u : string) (l : list Cik.Row) :
  filter (ticker_is u) (map of_cik_row l)
  = map of_cik_row (filter (Cik.ticker_is u) l).
Proof.
  induction l as [|r l IH]; [reflexivity|].
  cbn [map filter].
  change (ticker_is u (of_cik_row r)) with (Cik.ticker_is u r).
  destruct (Cik.ticker_is u r); cbn [map]; now rewrite IH.
Qed.

(** X13: the lookup of [stock.py] and the one of [cik.py] agree: on a stock
    list that holds the rows of [get_cik], [StockList.search_cik] returns
    and raises what [search_cik] does. *)
Theorem stock_search_cik_agrees :
  forall cik_list sym,
    search_cik (map of_cik_row cik_list) sym
    = of_result (Cik.search_cik cik_list sym).
Proof.
  intros l sym. unfold search_cik, Cik.search_cik.
  rewrite ticker_is_of_cik_row.
  destruct (filter (Cik.ticker_is (PyStr.upper sym)) l) as [|r [|r' rest]];
    reflexivity.
Qed.

(** X14: on a stock list whose [cik] cells are numbers as the source gives
    them, [StockList.search_cik] returns ten digits whose value is the
    number, when exactly one row has the upper-cased symbol and the number
    is between 0 and 10^10 - 1. *)
Theorem stock_search_cik_number :
  forall us_stock_list sym r n,
    filter (ticker_is (PyStr.upper sym)) us_stock_list = [r] ->
    cik r = CikInt n ->
    (0 <= n < 10 ^ 10)%Z ->
    exists c,
      search_cik us_stock_list sym = Returns c
      /\ String.length c = 10
      /\ PyStr.forallb_chars PyStr.isdigit c = true
      /\ PyStr.int_of_digits c = n.
Proof.
  intros l sym r n Hone Hcik Hn. unfold search_cik. rewrite Hone, Hcik.
  cbn [str]. unfold PyStr.str_int.
  destruct (Z.ltb_spec n 0) as [Hneg|_]; [lia|].
  eexists. split; [reflexivity|].
  apply (zero_fill_renders (PyStr.str_nonneg n) n); [|assumption].
  apply str_nonneg_renders. lia.
Qed.

Lemma stock_search_cik_number_witness :
  search_cik [mkStockRow (CikInt 320193) "Apple Inc." (Some "AAPL")] "aapl"
  = Returns "0000320193"
  /\ exists c,
      search_cik [mkStockRow (CikInt 320193) "Apple Inc." (Some "AAPL")]
                 "aapl"
      = Returns c
      /\ String.length c = 10
      /\ PyStr.forallb_chars PyStr.isdigit c = true
      /\ PyStr.int_of_digits c = 320193%Z.
Proof.
  split; [reflexivity|].
  refine (stock_search_cik_number
            [mkStockRow (CikInt 320193) "Apple Inc." (Some "AAPL")]
            "aapl" _ 320193 eq_refl eq_refl _).
  lia.
Defined.

Variables DataFrame UsFin : Type.
Variable UsFinancials : string -> string -> string -> outcome UsFin.
Variable get_financials : UsFin -> string -> outcome DataFrame.

(** X15: [Stock.financials] on a symbol that no row of the stock list has
    raises [ValueError], whatever [UsFinancials] would do: the lookup comes
    first. *)
Theorem financials_unknown_symbol :
  forall us_stock_list self financial period,
    (forall r, In r us_stock_list ->
               ticker r <> Some (PyStr.upper (symbol self))) ->
    financials DataFrame UsFin UsFinancials get_financials
               us_stock_list self financial period
    = Raises (Py ValueError).
Proof.
  intros l self financial period Hnone. unfold financials, search_cik.
  rewrite (filter_none _ l); [reflexivity|].
  intros r Hr. specialize (Hnone r Hr). unfold ticker_is.
  destruct (ticker r) as [t|]; [|reflexivity].
  apply String.eqb_neq. congruence.
Qed.

End StockLookup.

Lemma financials_unknown_symbol_witness :
  Stock.financials
    unit unit (fun _ _ _ => Stock.Returns tt) (fun _ _ => Stock.Returns tt)
    [Stock.mkStockRow (Stock.CikInt 320193) "Apple Inc." (Some "AAPL")]
    (Stock.mkStock "msft" "USA") "income_statement" "annual"
  = Stock.Raises (Stock.Py ValueError).
Proof.
  refine (financials_unknown_symbol
            unit unit (fun _ _ _ => Stock.Returns tt)
            (fun _ _ => Stock.Returns tt)
            [Stock.mkStockRow (Stock.CikInt 320193) "Apple Inc."
                              (Some "AAPL")]
            (Stock.mkStock "msft" "USA") "income_statement" "annual" _).
  intros r [<- | []]; cbn; discriminate.
Defined.

(** ** The market methods *)

Section MarketMethods.

Variables DataFrame Prices datetime UsFin KorFin : Type.
Variable CikList_search_cik : string -> result string.
Variable UsFinancials : string -> string -> string -> string -> result UsFin.
Variable Us_get_standard_financials : UsFin -> result DataFrame.
Variable Us_get_financials : UsFin -> result DataFrame.
Variable Us_open_report : UsFin -> result unit.
Variable KorFinancials : string -> string -> string -> result KorFin.
Variable Kor_get_standard_financials : KorFin -> result DataFrame.
Variable Kor_get_financials : KorFin -> result DataFrame.
Variable Kor_open_report : KorFin -> result unit.
Variable UsMarket : string -> datetime -> datetime -> result Prices.
Variable KorMarket : string -> datetime -> datetime -> result Prices.

Let financial_statement :=
  Market.financial_statement
    DataFrame UsFin KorFin CikList_search_cik UsFinancials
    Us_get_standard_financials Us_get_financials Us_open_report
    KorFinancials Kor_get_standard_financials Kor_get_financials
    Kor_open_report.

Let historical_price :=
  Market.historical_price Prices datetime UsMarket KorMarket.

(** X16: two country codes that differ in letter case only give the same
    [Market], and so the same answer of both methods. *)
Theorem market_caseless :
  forall c1 c2 symbol financial period web type_of_financial start end_,
    same_caseless c1 c2 ->
    Market.init c1 = Market.init c2
    /\ financial_statement (Market.init c1) symbol financial period web
                           type_of_financial
       = financial_statement (Market.init c2) symbol financial period web
                             type_of_financial
    /\ historical_price (Market.init c1) symbol start end_
       = historical_price (Market.init c2) symbol start end_.
Proof.
  intros c1 c2 symbol financial period web tof start end_ H.
  assert (Hinit : Market.init c1 = Market.init c2).
  { unfold Market.init. now rewrite (caseless_upper c1 c2 H). }
  rewrite Hinit. repeat split.
Qed.

(** X17: when the standard statement is asked for, [web] is not looked at;
    when it is not and [web] is set, [financial_statement] returns no
    table: it returns [None] after the report was opened, or raises. *)
Theorem financial_statement_web :
  forall self symbol financial period type_of_financial,
    (Market.is_standard type_of_financial = true ->
     financial_statement self symbol financial period true type_of_financial
     = financial_statement self symbol financial period false
                           type_of_financial)
    /\ (Market.is_standard type_of_financial = false ->
        forall df,
          financial_statement self symbol financial period true
                              type_of_financial
          <> Ok (Some df)).
Proof.
  intros self symbol financial period tof.
  unfold financial_statement, Market.financial_statement,
    Market.usa_statement, Market.kor_statement.
  split.
  - intros ->. reflexivity.
  - intros -> df. cbn [negb].
    destruct (String.eqb (Market.country_code self) "USA").
    + destruct (CikList_search_cik symbol) as [cik|e]; cbn; [|discriminate].
      destruct (UsFinancials symbol cik financial period) as [m|e]; cbn;
        [|discriminate].
      destruct (Us_open_report m); cbn; discriminate.
    + destruct (String.eqb (Market.country_code self) "KOR");
        [|discriminate].
      destruct (KorFinancials symbol financial period) as [m|e]; cbn;
        [|discriminate].
      destruct (Kor_open_report m); cbn; discriminate.
Qed.

End MarketMethods.

Lemma market_caseless_witness :
  same_caseless "Kor" "kOR"
  /\ Market.init "Kor" = Market.init "kOR".
Proof.
  assert (H : same_caseless "Kor" "kOR") by reflexivity.
  split; [exact H|].
  exact (proj1 (market_caseless
                  unit unit unit unit unit
                  (fun _ => Ok "0000320193") (fun _ _ _ _ => Ok tt)
                  (fun _ => Ok tt) (fun _ => Ok tt) (fun _ => Ok tt)
                  (fun _ _ _ => Ok tt) (fun _ => Ok tt) (fun _ => Ok tt)
                  (fun _ => Ok tt) (fun _ _ _ => Ok tt) (fun _ _ _ => Ok tt)
                  "Kor" "kOR" "005930" "income_statement" "annual" false
                  None tt tt H)).
Defined.

Lemma financial_statement_web_witness :
  Market.is_standard (Some "standard") = true
  /\ Market.financial_statement
       unit unit unit (fun _ => Ok "0000320193") (fun _ _ _ _ => Ok tt)
       (fun _ => Ok tt) (fun _ => Ok tt) (fun _ => Ok tt)
       (fun _ _ _ => Ok tt) (fun _ => Ok tt) (fun _ => Ok tt)
       (fun _ => Ok tt)
       (Market.init "usa") "AAPL" "income_statement" "annual" true
       (Some "standard")
     = Market.financial_statement
         unit unit unit (fun _ => Ok "0000320193") (fun _ _ _ _ => Ok tt)
         (fun _ => Ok tt) (fun _ => Ok tt) (fun _ => Ok tt)
         (fun _ _ _ => Ok tt) (fun _ => Ok tt) (fun _ => Ok tt)
         (fun _ => Ok tt)
         (Market.init "usa") "AAPL" "income_statement" "annual" false
         (Some "standard").
Proof.
  split; [reflexivity|].
  exact (proj1 (financial_statement_web
                  unit unit unit
                  (fun _ => Ok "0000320193") (fun _ _ _ _ => Ok tt)
                  (fun _ => Ok tt) (fun _ => Ok tt) (fun _ => Ok tt)
                  (fun _ _ _ => Ok tt) (fun _ => Ok tt) (fun _ => Ok tt)
                  (fun _ => Ok tt)
                  (Market.init "usa") "AAPL" "income_statement" "annual"
                  (Some "standard"))
               eq_refl).
Defined.

(** ** The scripts *)

Section ConnectDbOutcomes.

Variables Database Config : Type.
Variable load_config : result Config.
Variable mysql_password : Config -> result string.
Variable Database_new : string -> string -> string -> result Database.

Let connect_db :=
  Connect.connect_db Database Config load_config mysql_password Database_new.

(** X18: what [connect_db] raises was raised while the configuration was
    read, or is an exception of the constructor that is no [Exception]; it
    prints at most one line, and only when it returns [None]; and it
    returns a connection only when the constructor gave it. *)
Theorem connect_db_outcomes :
  forall stdout,
    (forall e,
        fst (connect_db stdout) = Raise e ->
        load_config = Raise e
        \/ exists config,
            load_config = Ok config
            /\ (mysql_password config = Raise e
                \/ exists pw,
                    mysql_password config = Ok pw
                    /\ Database_new pw "us_stock" "stock_list" = Raise e
                    /\ is_Exception e = false))
    /\ (exists printed,
           snd (connect_db stdout) = stdout ++ printed
           /\ List.length printed <= 1
           /\ (printed <> [] -> fst (connect_db stdout) = Ok None))
    /\ (forall db,
           fst (connect_db stdout) = Ok (Some db) ->
           exists config pw,
             load_config = Ok config
             /\ mysql_password config = Ok pw
             /\ Database_new pw "us_stock" "stock_list" = Ok db).
Proof.
  intro stdout. unfold connect_db, Connect.connect_db.
  destruct load_config as [config|e0].
  - destruct (mysql_password config) as [pw|e1] eqn:Hpw.
    + destruct (Database_new pw "us_stock" "stock_list") as [db|e2] eqn:Hdb.
      * cbn. split; [discriminate|]. split.
        -- exists []. rewrite app_nil_r. repeat split; [cbn; lia|].
           intro H. now contradiction H.
        -- intros db' [= <-]. now exists config, pw.
      * destruct (is_Exception e2) eqn:Hex; cbn.
        -- split; [discriminate|]. split; [|discriminate].
           exists [exc_str e2]. repeat split. cbn. lia.
        -- split.
           ++ intros e [= <-]. right. exists config. split; [reflexivity|].
              right. exists pw. now repeat split.
           ++ split; [|discriminate].
              exists []. rewrite app_nil_r. repeat split; [cbn; lia|].
              intro H. now contradiction H.
    + cbn. split.
      * intros e [= <-]. right. exists config. split; [reflexivity|].
        now left.
      * split; [|discriminate].
        exists []. rewrite app_nil_r. repeat split; [cbn; lia|].
        intro H. now contradiction H.
  - cbn. split.
    + intros e [= <-]. now left.
    + split; [|discriminate].
      exists []. rewrite app_nil_r. repeat split; [cbn; lia|].
      intro H. now contradiction H.
Qed.

End ConnectDbOutcomes.

Lemma connect_db_outcomes_witness :
  fst (Connect.connect_db unit unit (Raise FileNotFoundError)
                          (fun _ => Ok "secret")
                          ScriptSamples.access_denied [])
  = Raise FileNotFoundError
  /\ (@Raise unit FileNotFoundError = Raise FileNotFoundError
      \/ exists config,
          @Raise unit FileNotFoundError = Ok config
          /\ (Ok "secret" = Raise FileNotFoundError
              \/ exists pw,
                  Ok "secret" = Ok pw
                  /\ ScriptSamples.access_denied pw "us_stock" "stock_list"
                     = Raise FileNotFoundError
                  /\ is_Exception FileNotFoundError = false)).
Proof.
  split; [reflexivity|].
  exact (proj1 (connect_db_outcomes
                  unit unit (Raise FileNotFoundError) (fun _ => Ok "secret")
                  ScriptSamples.access_denied [])
               FileNotFoundError eq_refl).
Defined.

Section MainRuns.

Import Main.

(** X19: in no run does the script change the stored table or what the
    registry and the database answer; it prints at most one changeset, and
    a run that raises prints nothing and leaves everything as it was. *)
Theorem main_never_writes :
  forall w,
    stock_table (snd (main w)) = stock_table w
    /\ fetched (snd (main w)) = fetched w
    /\ connected (snd (main w)) = connected w
    /\ (exists printed,
           stdout (snd (main w)) = stdout w ++ printed
           /\ List.length printed <= 1)
    /\ (forall e, fst (main w) = Raise e -> snd (main w) = w).
Proof.
  intro w. unfold main.
  destruct (fetched w) as [latest|e] eqn:Hf.
  - destruct (connected w) as [u|e] eqn:Hc; cbn.
    + repeat split; try assumption; [|discriminate].
      eexists. split; [reflexivity | cbn; lia].
    + repeat split; try assumption.
      exists []. rewrite app_nil_r. split; [reflexivity | cbn; lia].
  - cbn. repeat split; try assumption.
    exists []. rewrite app_nil_r. split; [reflexivity | cbn; lia].
Qed.

Lemma main_never_writes_witness :
  fst (main (mkWorld (Raise (OtherException "HTTP 503")) (Ok tt)
                     [ScriptSamples.apple] []))
  = Raise (OtherException "HTTP 503")
  /\ snd (main (mkWorld (Raise (OtherException "HTTP 503")) (Ok tt)
                        [ScriptSamples.apple] []))
     = mkWorld (Raise (OtherException "HTTP 503")) (Ok tt)
               [ScriptSamples.apple] [].
Proof.
  split; [reflexivity|].
  exact (proj2 (proj2 (proj2 (proj2
           (main_never_writes
              (mkWorld (Raise (OtherException "HTTP 503")) (Ok tt)
                       [ScriptSamples.apple] [])))))
           (OtherException "HTTP 503") eq_refl).
Defined.

End MainRuns.
